(** * pkg/config/loader.go: loading and validating the sonobuoy configuration

    A shallow embedding of [LoadConfig] and [loadAllPlugins].  The two
    functions talk to three collaborators: the process-wide viper store, the
    operating system (environment and hostname) and the plugin loader.  The
    operating system and the plugin loader are a [World] that the program
    reads; the viper store is state that the program threads through its
    calls, together with the list of collaborator calls made so far. *)

From Stdlib Require Import ZArith DecimalString Ascii.
From stdpp Require Import gmap strings list fin_maps.

Open Scope string_scope.

(** ** Go values *)

(** A Go [error] is observed through its message. *)
Definition error : Type := string.

(** [strings.ToLower] and [strings.ToUpper] on ASCII letters: viper keys are
    case-insensitive, and an environment binding without an explicit name is
    the upper-cased key. *)
Definition lower_ascii (c : ascii) : ascii :=
  let n := nat_of_ascii c in
  if (65 <=? n)%nat && (n <=? 90)%nat then ascii_of_nat (n + 32) else c.

Definition upper_ascii (c : ascii) : ascii :=
  let n := nat_of_ascii c in
  if (97 <=? n)%nat && (n <=? 122)%nat then ascii_of_nat (n - 32) else c.

Fixpoint map_string (f : ascii -> ascii) (s : string) : string :=
  match s with
  | EmptyString => EmptyString
  | String c s' => String (f c) (map_string f s')
  end.

Definition ToLower : string -> string := map_string lower_ascii.
Definition ToUpper : string -> string := map_string upper_ascii.

(** The [%d] verb on an [int]. *)
Definition itoa (z : Z) : string := NilEmpty.string_of_int (Z.to_int z).

(** [fmt.Sprintf("%v:%d", host, port)]. *)
Definition Sprintf_host_port (host : string) (port : Z) : string :=
  host +:+ ":" +:+ itoa port.

(** [fmt.Errorf("Configured plugin %v does not exist", name)]. *)
Definition Errorf_plugin_does_not_exist (name : string) : error :=
  "Configured plugin " +:+ name +:+ " does not exist".

(** ** The raw configuration document *)

(** A value of the JSON document viper has read.  (JSON null is left out.) *)
#[warnings="-register-all"]
Inductive Value : Type :=
| VStr (s : string)
| VNum (z : Z)
| VBool (b : bool)
| VArr (items : list Value)
| VObj (fields : list (string * Value)).

(** The document as viper holds it after [ReadInConfig]: keys are key paths
    (nested keys joined by a dot), already lower-cased by viper. *)
Abbreviation Document := (gmap string Value).

(** [plugin.Selection]: the name of a requested plugin. *)
Record Selection : Type := { Name : string }.

(** ** Decoding document values (mapstructure, as viper.Unmarshal uses it) *)

(** Modelled from the spec: a value of another type than the field's is
    the parse error of the spec ("wrong value type for a known key");
    mapstructure's weak conversions (a number or a boolean read as a string)
    are not modelled, and no property below relies on their absence. *)
Definition decodeString (v : Value) : option string :=
  match v with VStr s => Some s | _ => None end.

Definition decodeInt (v : Value) : option Z :=
  match v with VNum z => Some z | _ => None end.

Fixpoint decodeAll {A : Type} (dec : Value -> option A) (items : list Value)
  : option (list A) :=
  match items with
  | [] => Some []
  | v :: rest =>
      match dec v, decodeAll dec rest with
      | Some a, Some l => Some (a :: l)
      | _, _ => None
      end
  end.

Definition decodeSlice {A : Type} (dec : Value -> option A) (v : Value)
  : option (list A) :=
  match v with VArr items => decodeAll dec items | _ => None end.

Fixpoint assoc (key : string) (fields : list (string * Value)) : option Value :=
  match fields with
  | [] => None
  | (k, v) :: rest => if String.eqb k key then Some v else assoc key rest
  end.

Definition decodeSelection (v : Value) : option Selection :=
  match v with
  | VObj fields =>
      match assoc "name" fields with
      | None => Some {| Name := "" |}
      | Some (VStr s) => Some {| Name := s |}
      | Some _ => None
      end
  | _ => None
  end.

(** mapstructure decodes a list into the slice the field already holds:
    element [i] of the document overwrites element [i] of the slice, and the
    elements of the old slice beyond the document's length stay.  This is
    the merge the comment before line 85 of loader.go speaks of. *)
Definition overlay {A : Type} (new old : list A) : list A :=
  new ++ drop (length new) old.

(** [cast.ToStringSlice] on the value of a key, for a list of strings; any
    other shape gives the empty slice. *)
Definition ToStringSlice (v : option Value) : list string :=
  match v with
  | Some w => default [] (decodeSlice decodeString w)
  | None => []
  end.

(** ** Plugins *)

(** [plugin.Interface], as far as the loader uses it. *)
Class PluginInterface (Plugin : Type) := GetName : Plugin -> string.

(** A plugin handle for the examples: a name and what else the handle holds. *)
Record Handle : Type := { handleName : string; handleDriver : nat }.

#[export] Instance Handle_plugin : PluginInterface Handle := handleName.

(** ** The configuration and the collaborators *)

Section Loader.

Context {Plugin : Type} `{!PluginInterface Plugin}.

(** [plugin.AggregationConfig], the fields the loader reads and writes. *)
Record AggregationConfig : Type := {
  BindPort : Z;
  AdvertiseAddress : string
}.

(** Modelled from the spec: the [Config] struct is declared in config.go,
    which is not among the sources.  The fields are those loader.go uses;
    [LoadedPlugins] is the spec's "set of plugin-handle, keyed by name". *)
Record Config : Type := {
  Kubeconfig : string;
  ResultsDir : string;
  Resources : list string;
  Aggregation : AggregationConfig;
  PluginSelections : list Selection;
  PluginSearchPath : list string;
  PluginNamespace : string;
  LoadedPlugins : gmap string Plugin;
  Version : string
}.

Definition set_AdvertiseAddress (a : string) (cfg : Config) : Config :=
  {| Kubeconfig := Kubeconfig cfg; ResultsDir := ResultsDir cfg;
     Resources := Resources cfg;
     Aggregation := {| BindPort := BindPort (Aggregation cfg);
                       AdvertiseAddress := a |};
     PluginSelections := PluginSelections cfg;
     PluginSearchPath := PluginSearchPath cfg;
     PluginNamespace := PluginNamespace cfg;
     LoadedPlugins := LoadedPlugins cfg; Version := Version cfg |}.

Definition set_Version (v : string) (cfg : Config) : Config :=
  {| Kubeconfig := Kubeconfig cfg; ResultsDir := ResultsDir cfg;
     Resources := Resources cfg; Aggregation := Aggregation cfg;
     PluginSelections := PluginSelections cfg;
     PluginSearchPath := PluginSearchPath cfg;
     PluginNamespace := PluginNamespace cfg;
     LoadedPlugins := LoadedPlugins cfg; Version := v |}.

Definition set_ResultsDir (d : string) (cfg : Config) : Config :=
  {| Kubeconfig := Kubeconfig cfg; ResultsDir := d;
     Resources := Resources cfg; Aggregation := Aggregation cfg;
     PluginSelections := PluginSelections cfg;
     PluginSearchPath := PluginSearchPath cfg;
     PluginNamespace := PluginNamespace cfg;
     LoadedPlugins := LoadedPlugins cfg; Version := Version cfg |}.

Definition set_Resources (r : list string) (cfg : Config) : Config :=
  {| Kubeconfig := Kubeconfig cfg; ResultsDir := ResultsDir cfg;
     Resources := r; Aggregation := Aggregation cfg;
     PluginSelections := PluginSelections cfg;
     PluginSearchPath := PluginSearchPath cfg;
     PluginNamespace := PluginNamespace cfg;
     LoadedPlugins := LoadedPlugins cfg; Version := Version cfg |}.

Definition set_LoadedPlugins (m : gmap string Plugin) (cfg : Config) : Config :=
  {| Kubeconfig := Kubeconfig cfg; ResultsDir := ResultsDir cfg;
     Resources := Resources cfg; Aggregation := Aggregation cfg;
     PluginSelections := PluginSelections cfg;
     PluginSearchPath := PluginSearchPath cfg;
     PluginNamespace := PluginNamespace cfg;
     LoadedPlugins := m; Version := Version cfg |}.

(** Modelled from the spec: [addPlugin] is a method of config.go, which is
    not among the sources.  The spec has the handle "registered into the
    Configuration's loadedPlugins set, keyed by name". *)
Definition addPlugin (cfg : Config) (p : Plugin) : Config :=
  set_LoadedPlugins (<[GetName p := p]> (LoadedPlugins cfg)) cfg.

(** The built-in values [NewWithDefaults] starts from. *)
Record Builtin : Type := {
  defaultResultsDir : string;
  defaultResources : list string;
  defaultBindPort : Z;
  defaultPluginSelections : list Selection;
  defaultPluginSearchPath : list string;
  defaultPluginNamespace : string
}.

Variable builtin : Builtin.

(** [buildinfo.Version], set when the binary is built. *)
Variable buildinfo_Version : string.

(** Modelled from the spec: [NewWithDefaults] is a function of config.go,
    which is not among the sources.  The spec gives the kubeconfig path as
    empty by default, the results directory and the resource list as
    built-in values, the advertise address as empty until it is derived, and
    the loaded plugins as empty until validation succeeds. *)
Definition NewWithDefaults : Config :=
  {| Kubeconfig := "";
     ResultsDir := defaultResultsDir builtin;
     Resources := defaultResources builtin;
     Aggregation := {| BindPort := defaultBindPort builtin;
                       AdvertiseAddress := "" |};
     PluginSelections := defaultPluginSelections builtin;
     PluginSearchPath := defaultPluginSearchPath builtin;
     PluginNamespace := defaultPluginNamespace builtin;
     LoadedPlugins := ∅;
     Version := buildinfo_Version |}.

(** The viper singleton: where to look for the configuration file, the
    defaults and environment bindings set on it, and the document read. *)
Record Viper : Type := {
  configType : string;
  configName : string;
  configPaths : list string;
  configFile : string;
  defaults : gmap string Value;
  envBindings : gmap string string;
  config : Document
}.

Definition Viper_new : Viper :=
  {| configType := ""; configName := "config"; configPaths := [];
     configFile := ""; defaults := ∅; envBindings := ∅; config := ∅ |}.

(** What the program reads from outside: the process environment, the
    hostname, the configuration file viper finds for its settings (the forced
    file, the search paths, the name and the type) and the plugin loader. *)
Record World : Type := {
  environ : gmap string string;
  os_Hostname : string * option error;
  readConfigFile : string -> list string -> string -> string -> error + Document;
  pluginloader_LoadAllPlugins :
    string -> list string -> list Selection -> string ->
    list Plugin * option error
}.

(** The calls to collaborators that can fail, in the order they are made. *)
Inductive Call : Type :=
| CallReadInConfig
| CallUnmarshal
| CallLoadAllPlugins.

Record State : Type := {
  viper : Viper;
  calls : list Call
}.

Definition State_init : State := {| viper := Viper_new; calls := [] |}.

(** The monad of the loader: read the world, thread the state. *)
Definition M (A : Type) : Type := World -> State -> A * State.

#[local] Instance M_ret : MRet M := fun A a _ st => (a, st).

#[local] Instance M_bind : MBind M := fun A B f m w st =>
  let '(a, st') := m w st in f a w st'.

Definition modifyViper (f : Viper -> Viper) : M unit := fun _ st =>
  (tt, {| viper := f (viper st); calls := calls st |}).

Definition logCall (c : Call) : M unit := fun _ st =>
  (tt, {| viper := viper st; calls := calls st ++ [c] |}).

Definition getViper : M Viper := fun _ st => (viper st, st).

Definition getWorld : M World := fun w st => (w, st).

(** ** The viper calls of loader.go *)

Definition SetConfigType (t : string) : M unit := modifyViper (fun v =>
  {| configType := t; configName := configName v;
     configPaths := configPaths v; configFile := configFile v;
     defaults := defaults v; envBindings := envBindings v;
     config := config v |}).

Definition SetConfigName (n : string) : M unit := modifyViper (fun v =>
  {| configType := configType v; configName := n;
     configPaths := configPaths v; configFile := configFile v;
     defaults := defaults v; envBindings := envBindings v;
     config := config v |}).

Definition AddConfigPath (d : string) : M unit := modifyViper (fun v =>
  {| configType := configType v; configName := configName v;
     configPaths := configPaths v ++ [d]; configFile := configFile v;
     defaults := defaults v; envBindings := envBindings v;
     config := config v |}).

Definition SetConfigFile (f : string) : M unit := modifyViper (fun v =>
  {| configType := configType v; configName := configName v;
     configPaths := configPaths v; configFile := f;
     defaults := defaults v; envBindings := envBindings v;
     config := config v |}).

Definition SetDefault (key : string) (val : Value) : M unit :=
  modifyViper (fun v =>
  {| configType := configType v; configName := configName v;
     configPaths := configPaths v; configFile := configFile v;
     defaults := <[ToLower key := val]> (defaults v);
     envBindings := envBindings v; config := config v |}).

Definition BindEnv (key : string) : M unit := modifyViper (fun v =>
  {| configType := configType v; configName := configName v;
     configPaths := configPaths v; configFile := configFile v;
     defaults := defaults v;
     envBindings := <[ToLower key := ToUpper key]> (envBindings v);
     config := config v |}).

Definition setDocument (doc : Document) : M unit := modifyViper (fun v =>
  {| configType := configType v; configName := configName v;
     configPaths := configPaths v; configFile := configFile v;
     defaults := defaults v; envBindings := envBindings v;
     config := doc |}).

(** [os.Getenv]: the empty string when the variable is not set. *)
Definition Getenv (name : string) : M string := fun w st =>
  (default "" (environ w !! name), st).

(** [os.LookupEnv]: [Some] is the value with [ok = true]. *)
Definition LookupEnv (name : string) : M (option string) := fun w st =>
  (environ w !! name, st).

Definition Hostname : M (string * option error) := fun w st =>
  (os_Hostname w, st).

(** [viper.ReadInConfig]: on success the document becomes the store's
    configuration layer. *)
Definition ReadInConfig : M (option error) :=
  logCall CallReadInConfig ;;
  v ← getViper ;
  w ← getWorld ;
  match readConfigFile w (configFile v) (configPaths v)
          (configName v) (configType v) with
  | inl e => mret (Some e)
  | inr doc => setDocument doc ;; mret None
  end.

(** viper's lookup of a key: a bound environment variable that is set and
    not empty, else the document, else the defaults. *)
Definition lookupKey (w : World) (v : Viper) (key : string) : option Value :=
  let k := ToLower key in
  let stored :=
    match config v !! k with
    | Some val => Some val
    | None => defaults v !! k
    end in
  match envBindings v !! k with
  | Some name =>
      match environ w !! name with
      | Some val => if String.eqb val "" then stored else Some (VStr val)
      | None => stored
      end
  | None => stored
  end.

Definition find (key : string) : M (option Value) := fun w st =>
  (lookupKey w (viper st) key, st).

Definition IsSet (key : string) : M bool :=
  val ← find key ; mret (bool_decide (is_Some val)).

Definition GetStringSlice (key : string) : M (list string) :=
  val ← find key ; mret (ToStringSlice val).

(** One field of [viper.Unmarshal]: an unset key leaves the field as it is,
    a value of the field's type replaces it, any other value is the decoding
    error. *)
Definition decodeValue {A : Type} (key : string) (dec : Value -> option A)
  (keep : A) (val : option Value) : error + A :=
  match val with
  | None => inr keep
  | Some v =>
      match dec v with
      | Some a => inr a
      | None => inl ("cannot decode " +:+ ToLower key)
      end
  end.

Definition decodeField {A : Type} (key : string) (dec : Value -> option A)
  (keep : A) : M (error + A) :=
  val ← find key ; mret (decodeValue key dec keep val).

(** The same for a slice field, where the decoded list is laid over the
    slice the field already holds. *)
Definition decodeSliceField {A : Type} (key : string) (dec : Value -> option A)
  (keep : list A) : M (error + list A) :=
  val ← find key ;
  mret (decodeValue key (fun v => l ← decodeSlice dec v ; Some (overlay l keep))
          keep val).

(** Continue with the decoded field, or stop at the first error. *)
Definition andThen {A B : Type} (m : M (error + A)) (k : A -> M (error + B))
  : M (error + B) :=
  r ← m ; match r with inl e => mret (inl e) | inr a => k a end.

(** Modelled from the spec: [viper.Unmarshal(cfg)] decodes the settings of
    the store onto the fields of [Config]; the struct tags are in config.go,
    which is not among the sources, so every field is found under its Go
    name, as mapstructure does for a field without a tag.  The spec has a
    wrong value type for a known key fail with a parse error.
    [LoadedPlugins] is not a setting. *)
Definition Unmarshal (cfg : Config) : M (error + Config) :=
  logCall CallUnmarshal ;;
  andThen (decodeField "Kubeconfig" decodeString (Kubeconfig cfg)) (fun kc =>
  andThen (decodeField "ResultsDir" decodeString (ResultsDir cfg)) (fun rd =>
  andThen (decodeSliceField "Resources" decodeString (Resources cfg)) (fun rs =>
  andThen (decodeField "Aggregation.BindPort" decodeInt
             (BindPort (Aggregation cfg))) (fun bp =>
  andThen (decodeField "Aggregation.AdvertiseAddress" decodeString
             (AdvertiseAddress (Aggregation cfg))) (fun aa =>
  andThen (decodeSliceField "PluginSelections" decodeSelection
             (PluginSelections cfg)) (fun ps =>
  andThen (decodeSliceField "PluginSearchPath" decodeString
             (PluginSearchPath cfg)) (fun sp =>
  andThen (decodeField "PluginNamespace" decodeString
             (PluginNamespace cfg)) (fun ns =>
  andThen (decodeField "Version" decodeString (Version cfg)) (fun ver =>
  mret (inr
    {| Kubeconfig := kc; ResultsDir := rd; Resources := rs;
       Aggregation := {| BindPort := bp; AdvertiseAddress := aa |};
       PluginSelections := ps; PluginSearchPath := sp;
       PluginNamespace := ns; LoadedPlugins := LoadedPlugins cfg;
       Version := ver |})))))))))).

(** ** loadAllPlugins (loader.go, lines 123-151) *)

(** The inner loop, lines 134-139: [found] is set at a plugin of the
    selection's name and never reset; the loop does not stop early. *)
Definition selectionFound (sel : Selection) (plugins : list Plugin) : bool :=
  fold_left
    (fun found p => if String.eqb (GetName p) (Name sel) then true else found)
    plugins false.

(** The outer loop, lines 133-144: return at the first selection that was
    not found. *)
Fixpoint checkSelections (sels : list Selection) (plugins : list Plugin)
  : option error :=
  match sels with
  | [] => None
  | sel :: rest =>
      if negb (selectionFound sel plugins)
      then Some (Errorf_plugin_does_not_exist (Name sel))
      else checkSelections rest plugins
  end.

(** The last loop, lines 146-148. *)
Definition addPlugins (cfg : Config) (plugins : list Plugin) : Config :=
  fold_left addPlugin plugins cfg.

(** [cfg] is a pointer in Go: the function returns the configuration as it
    has left it, and the error. *)
Definition loadAllPlugins (cfg : Config) : M (Config * option error) :=
  logCall CallLoadAllPlugins ;;
  w ← getWorld ;
  let '(plugins, err) :=
    pluginloader_LoadAllPlugins w (PluginNamespace cfg) (PluginSearchPath cfg)
      (PluginSelections cfg) (AdvertiseAddress (Aggregation cfg)) in
  match err with
  | Some e => mret (cfg, Some e)
  | None =>
      match checkSelections (PluginSelections cfg) plugins with
      | Some e => mret (cfg, Some e)
      | None => mret (addPlugins cfg plugins, None)
      end
  end.

(** ** LoadConfig (loader.go, lines 34-93) *)

(** Step 3, lines 61-70. *)
Definition deriveAdvertiseAddress (cfg : Config) : M Config :=
  if String.eqb (AdvertiseAddress (Aggregation cfg)) "" then
    ip ← LookupEnv "SONOBUOY_ADVERTISE_IP" ;
    match ip with
    | Some ip =>
        mret (set_AdvertiseAddress
                (Sprintf_host_port ip (BindPort (Aggregation cfg))) cfg)
    | None =>
        '(hostname, _) ← Hostname ;
        if negb (String.eqb hostname "") then
          mret (set_AdvertiseAddress
                  (Sprintf_host_port hostname (BindPort (Aggregation cfg))) cfg)
        else mret cfg
    end
  else mret cfg.

(** Lines 76-78. *)
Definition overrideResultsDir (cfg : Config) : M Config :=
  resultsDir ← LookupEnv "RESULTS_DIR" ;
  match resultsDir with
  | Some resultsDir => mret (set_ResultsDir resultsDir cfg)
  | None => mret cfg
  end.

(** Lines 85-87. *)
Definition exactResources (cfg : Config) : M Config :=
  isSet ← IsSet "Resources" ;
  if (isSet : bool) then
    rs ← GetStringSlice "Resources" ; mret (set_Resources rs cfg)
  else mret cfg.

(** Step 0, lines 39-48. *)
Definition configureViper : M unit :=
  SetConfigType "json" ;;
  SetConfigName "config" ;;
  AddConfigPath "/etc/sonobuoy/" ;;
  AddConfigPath "." ;;
  SetDefault "kubeconfig" (VStr "") ;;
  BindEnv "kubeconfig" ;;
  forceCfg ← Getenv "SONOBUOY_CONFIG" ;
  if negb (String.eqb forceCfg "") then SetConfigFile forceCfg else mret tt.

(** The result is Go's pair of a [*Config] ([None] is nil) and an error. *)
Definition LoadConfig : M (option Config * option error) :=
  let cfg := NewWithDefaults in
  configureViper ;;
  err ← ReadInConfig ;
  match err with
  | Some e => mret (None, Some e)
  | None =>
      r ← Unmarshal cfg ;
      match r with
      | inl e => mret (None, Some e)
      | inr cfg =>
          cfg ← deriveAdvertiseAddress cfg ;
          let cfg := set_Version buildinfo_Version cfg in
          cfg ← overrideResultsDir cfg ;
          cfg ← exactResources cfg ;
          '(cfg, err) ← loadAllPlugins cfg ;
          mret (Some cfg, err)
      end
  end.

(** Running the loader in a fresh process. *)
Definition run_LoadConfig (w : World)
  : (option Config * option error) * list Call :=
  let '(r, st) := LoadConfig w State_init in (r, calls st).

(** ** LoadClient (loader.go, lines 96-119) *)

(** [*rest.Config] and [kubernetes.Interface] are opaque to the loader. *)
Context {RestConfig Clientset : Type}.

(** The client libraries [LoadClient] calls.  A Go pair of a value and an
    error is a sum here: the value is used only when the error is nil. *)
Record Kube : Type := {
  clientcmd_BuildConfigFromFlags : string -> string -> error + RestConfig;
  rest_InClusterConfig : error + RestConfig;
  kubernetes_NewForConfig : RestConfig -> error + Clientset
}.

(** The calls [LoadClient] makes to the client libraries. *)
Inductive KubeCall : Type :=
| CallBuildConfigFromFlags (masterUrl kubeconfigPath : string)
| CallInClusterConfig
| CallNewForConfig.

(** [cast.ToString] on the value of a key: a string as it is, a number in
    decimal, a boolean as true or false, anything else (and no value) the
    empty string. *)
Definition ToString (v : option Value) : string :=
  match v with
  | Some (VStr s) => s
  | Some (VNum z) => itoa z
  | Some (VBool true) => "true"
  | Some (VBool false) => "false"
  | _ => ""
  end.

Definition GetString (key : string) : M string :=
  val ← find key ; mret (ToString val).

Definition set_Kubeconfig (k : string) (cfg : Config) : Config :=
  {| Kubeconfig := k; ResultsDir := ResultsDir cfg;
     Resources := Resources cfg; Aggregation := Aggregation cfg;
     PluginSelections := PluginSelections cfg;
     PluginSearchPath := PluginSearchPath cfg;
     PluginNamespace := PluginNamespace cfg;
     LoadedPlugins := LoadedPlugins cfg; Version := Version cfg |}.

(** The result is the configuration as the function has left it, Go's pair
    of a client ([None] is nil) and an error, and the calls made to the
    client libraries, in order. *)
Definition LoadClient (k : Kube) (cfg : Config)
  : M (Config * (option Clientset * option error) * list KubeCall) :=
  kubeconfig ← GetString "kubeconfig" ;
  let '(cfg, r, made) :=
    if (0 <? String.length kubeconfig)%nat then
      (set_Kubeconfig kubeconfig cfg,
       clientcmd_BuildConfigFromFlags k "" kubeconfig,
       [CallBuildConfigFromFlags "" kubeconfig])
    else (cfg, rest_InClusterConfig k, [CallInClusterConfig]) in
  match r with
  | inl err => mret (cfg, (None, Some err), made)
  | inr config =>
      match kubernetes_NewForConfig k config with
      | inl err => mret (cfg, (None, Some err), (made ++ [CallNewForConfig])%list)
      | inr clientset =>
          mret (cfg, (Some clientset, None),
                (made ++ [CallNewForConfig])%list)
      end
  end.

(** ** What the properties speak of *)

(** The file the loader forces viper to read: the value of SONOBUOY_CONFIG,
    empty when there is none. *)
Definition forcedConfigFile (w : World) : string :=
  default "" (environ w !! "SONOBUOY_CONFIG").

(** The raw document of a world: what [ReadInConfig] gets under the settings
    of lines 39-48. *)
Definition document (w : World) : error + Document :=
  readConfigFile w (forcedConfigFile w) ["/etc/sonobuoy/"; "."] "config" "json".

(** The value a document gives to a key. *)
Definition docLookup (doc : Document) (key : string) : option Value :=
  doc !! ToLower key.

(** The viper store once lines 39-53 have run. *)
Definition loaderViper (forced : string) (doc : Document) : Viper :=
  {| configType := "json"; configName := "config";
     configPaths := ["/etc/sonobuoy/"; "."]; configFile := forced;
     defaults := {[ "kubeconfig" := VStr "" ]};
     envBindings := {[ "kubeconfig" := "KUBECONFIG" ]};
     config := doc |}.

(** The state in which lines 55-90 run: the store holds the document. *)
Definition loadedState (w : World) (doc : Document) (cs : list Call) : State :=
  {| viper := loaderViper (forcedConfigFile w) doc; calls := cs |}.

(** What [Unmarshal] makes of the defaults over a document. *)
Definition unmarshalled (w : World) (doc : Document) : error + Config :=
  (Unmarshal NewWithDefaults w (loadedState w doc [])).1.

(** The configuration after line 87, from the one [Unmarshal] has filled. *)
Definition settled (w : World) (doc : Document) (cfg : Config) : Config :=
  let st := loadedState w doc [] in
  let cfg := (deriveAdvertiseAddress cfg w st).1 in
  let cfg := set_Version buildinfo_Version cfg in
  let cfg := (overrideResultsDir cfg w st).1 in
  (exactResources cfg w st).1.

(** The plugins the loader discovers for a configuration. *)
Definition discovered (w : World) (cfg : Config) : list Plugin * option error :=
  pluginloader_LoadAllPlugins w (PluginNamespace cfg) (PluginSearchPath cfg)
    (PluginSelections cfg) (AdvertiseAddress (Aggregation cfg)).

(** A selection is matched when its name is, exactly, the name of a
    discovered plugin. *)
Definition matched (plugins : list Plugin) (sel : Selection) : Prop :=
  Name sel ∈ GetName <$> plugins.

(** The host of the advertise address in the spec's words: the advertise-IP
    variable if present, else the hostname if it resolves (to a name that is
    not empty), else none. *)
Definition spec_advertiseHost (w : World) : option string :=
  match environ w !! "SONOBUOY_ADVERTISE_IP" with
  | Some ip => Some ip
  | None =>
      if decide ((os_Hostname w).1 = "") then None else Some (os_Hostname w).1
  end.

(** The derived address in the spec's words: "{host}:{port}", or empty when
    there is no host. *)
Definition spec_advertiseAddress (w : World) (port : Z) : string :=
  match spec_advertiseHost w with
  | Some host => host +:+ ":" +:+ itoa port
  | None => ""
  end.

(** Two worlds give the loader the same inputs when they agree on the
    forced configuration file, on the three other variables the loader
    looks up, on the name of the host, on the files and on the plugin
    loader. *)
Definition sameInputs (w w' : World) : Prop :=
  forcedConfigFile w = forcedConfigFile w' ∧
  environ w !! "KUBECONFIG" = environ w' !! "KUBECONFIG" ∧
  environ w !! "SONOBUOY_ADVERTISE_IP" = environ w' !! "SONOBUOY_ADVERTISE_IP" ∧
  environ w !! "RESULTS_DIR" = environ w' !! "RESULTS_DIR" ∧
  (os_Hostname w).1 = (os_Hostname w').1 ∧
  readConfigFile w = readConfigFile w' ∧
  pluginloader_LoadAllPlugins w = pluginloader_LoadAllPlugins w'.

End Loader.

#[export] Instance matched_dec {Plugin : Type} `{!PluginInterface Plugin}
  (plugins : list Plugin) (sel : Selection) : Decision (matched plugins sel).
Proof. unfold matched. apply _. Defined.

(** ** Example data *)

Definition example_builtin (sels : list Selection) : Builtin :=
  {| defaultResultsDir := "./results";
     defaultResources := ["Nodes"; "Pods"; "Services"];
     defaultBindPort := 8080;
     defaultPluginSelections := sels;
     defaultPluginSearchPath := ["./plugins.d"];
     defaultPluginNamespace := "heptio-sonobuoy" |}.

Definition example_version : string := "v0.9.0".

Definition selection_a : Selection := {| Name := "a" |}.
Definition selection_b : Selection := {| Name := "b" |}.

Definition handle_a : Handle := {| handleName := "a"; handleDriver := 1 |}.
Definition handle_c : Handle := {| handleName := "c"; handleDriver := 2 |}.

(** A world with a given document (or read error), environment, hostname
    and result of plugin discovery. *)
Definition example_world (doc : error + Document) (env : gmap string string)
  (host : string) (found : list Handle * option error) : World :=
  {| environ := env;
     os_Hostname := (host, None);
     readConfigFile := fun _ _ _ _ => doc;
     pluginloader_LoadAllPlugins := fun _ _ _ _ => found |}.

(** The configuration the defaults give, up to the fields the examples
    vary. *)
Definition example_config (sels : list Selection) (resources : list string)
  (resultsDir address : string) (loaded : gmap string Handle) : Config :=
  {| Kubeconfig := "";
     ResultsDir := resultsDir;
     Resources := resources;
     Aggregation := {| BindPort := 8080; AdvertiseAddress := address |};
     PluginSelections := sels;
     PluginSearchPath := ["./plugins.d"];
     PluginNamespace := "heptio-sonobuoy";
     LoadedPlugins := loaded;
     Version := example_version |}.

(** Client libraries for the examples: configurations and clients are
    named by strings; building from a kubeconfig works for one path only,
    and there are no in-cluster credentials. *)
Definition example_kube : Kube (RestConfig:=string) (Clientset:=string) :=
  {| clientcmd_BuildConfigFromFlags := fun _ path =>
       if String.eqb path "/etc/kube/config" then inr ("config " +:+ path)
       else inl ("stat " +:+ path +:+ ": no such file or directory");
     rest_InClusterConfig := inl "unable to load in-cluster configuration";
     kubernetes_NewForConfig := fun config => inr ("client for " +:+ config) |}.

(** ** Properties of the loader *)

Section Properties.

Context {Plugin : Type} `{!PluginInterface Plugin}.
Variable builtin : Builtin.
Variable buildinfo_Version : string.

Implicit Types (w : World (Plugin:=Plugin)) (cfg : Config (Plugin:=Plugin)).
Implicit Types (st : State) (doc : Document) (plugins : list Plugin).

Ltac unfold_M :=
  unfold mbind, mret, M_bind, M_ret, modifyViper, logCall, getViper, getWorld.

Lemma lookupKey_loaderViper w forced doc key :
  ToLower key ≠ "kubeconfig" →
  lookupKey w (loaderViper forced doc) key = docLookup doc key.
Proof.
  intros Hk. unfold lookupKey, loaderViper, docLookup. cbn [config defaults envBindings].
  rewrite !lookup_singleton_ne by done.
  by destruct (doc !! ToLower key).
Qed.

Lemma configureViper_run w :
  configureViper w State_init = (tt, loadedState w ∅ []).
Proof.
  unfold configureViper, loadedState, forcedConfigFile, Getenv,
    SetConfigType, SetConfigName, AddConfigPath, SetDefault, BindEnv,
    SetConfigFile.
  unfold_M. cbn.
  destruct (environ w !! "SONOBUOY_CONFIG") as [f|] eqn:Hf; cbn.
  - destruct (String.eqb f "") eqn:He; cbn.
    + apply String.eqb_eq in He. subst f. reflexivity.
    + reflexivity.
  - reflexivity.
Qed.

Lemma ReadInConfig_run w :
  ReadInConfig w (loadedState w ∅ []) =
  match document w with
  | inl e => (Some e, loadedState w ∅ [CallReadInConfig])
  | inr doc => (None, loadedState w doc [CallReadInConfig])
  end.
Proof.
  unfold ReadInConfig, document, loadedState, setDocument. unfold_M. cbn.
  destruct (readConfigFile w _ _ _ _); reflexivity.
Qed.

(** [Unmarshal] only adds its call to the state. *)
Lemma Unmarshal_state cfg w st :
  (Unmarshal cfg w st).2 =
  {| viper := viper st; calls := calls st ++ [CallUnmarshal] |}.
Proof.
  unfold Unmarshal, andThen, decodeField, decodeSliceField, find. unfold_M. cbn.
  repeat match goal with
  | |- context [match ?d with inl _ => _ | inr _ => _ end] =>
      destruct d; cbn; [reflexivity|]
  end.
  reflexivity.
Qed.

(** The result of [Unmarshal] does not depend on the calls made before. *)
Lemma Unmarshal_result cfg w st :
  (Unmarshal cfg w st).1 =
  (Unmarshal cfg w {| viper := viper st; calls := [] |}).1.
Proof.
  unfold Unmarshal, andThen, decodeField, decodeSliceField, find. unfold_M. cbn.
  repeat match goal with
  | |- context [match ?d with inl _ => _ | inr _ => _ end] =>
      destruct d; cbn; [reflexivity|]
  end.
  reflexivity.
Qed.

(** The fields of a configuration that [Unmarshal] has filled. *)
Lemma Unmarshal_fields cfg cfg' w st :
  (Unmarshal cfg w st).1 = inr cfg' →
  decodeValue "ResultsDir" decodeString (ResultsDir cfg)
    (lookupKey w (viper st) "ResultsDir") = inr (ResultsDir cfg') ∧
  decodeValue "Resources"
    (fun v => l ← decodeSlice decodeString v ; Some (overlay l (Resources cfg)))
    (Resources cfg) (lookupKey w (viper st) "Resources") = inr (Resources cfg') ∧
  decodeValue "Aggregation.BindPort" decodeInt (BindPort (Aggregation cfg))
    (lookupKey w (viper st) "Aggregation.BindPort")
    = inr (BindPort (Aggregation cfg')) ∧
  decodeValue "Aggregation.AdvertiseAddress" decodeString
    (AdvertiseAddress (Aggregation cfg))
    (lookupKey w (viper st) "Aggregation.AdvertiseAddress")
    = inr (AdvertiseAddress (Aggregation cfg')) ∧
  decodeValue "Version" decodeString (Version cfg)
    (lookupKey w (viper st) "Version") = inr (Version cfg') ∧
  LoadedPlugins cfg' = LoadedPlugins cfg.
Proof.
  unfold Unmarshal, andThen, decodeField, decodeSliceField, find. unfold_M. cbn.
  repeat match goal with
  | |- context [match ?d with inl _ => _ | inr _ => _ end] =>
      let E := fresh "E" in destruct d eqn:E; cbn; [discriminate|]
  end.
  cbn. intros [= <-]. cbn. done.
Qed.

(** Steps 3 and 4 read the world and the store and leave the state alone. *)
Lemma deriveAdvertiseAddress_run cfg w st st' :
  deriveAdvertiseAddress cfg w st = ((deriveAdvertiseAddress cfg w st').1, st).
Proof.
  unfold deriveAdvertiseAddress, LookupEnv, Hostname. unfold_M.
  destruct (String.eqb _ ""); [|reflexivity].
  destruct (environ w !! _); [reflexivity|].
  destruct (os_Hostname w) as [h e]. by destruct (String.eqb h "").
Qed.

Lemma overrideResultsDir_run cfg w st st' :
  overrideResultsDir cfg w st = ((overrideResultsDir cfg w st').1, st).
Proof.
  unfold overrideResultsDir, LookupEnv. unfold_M.
  by destruct (environ w !! _).
Qed.

Lemma exactResources_run cfg w st st' :
  viper st = viper st' →
  exactResources cfg w st = ((exactResources cfg w st').1, st).
Proof.
  intros Hv. unfold exactResources, IsSet, GetStringSlice, find. unfold_M.
  rewrite Hv. case_bool_decide; cbn; by rewrite ?Hv.
Qed.

(** [loadAllPlugins] without the monad. *)
Lemma loadAllPlugins_run cfg w st :
  loadAllPlugins cfg w st =
  (match discovered w cfg with
   | (plugins, Some e) => (cfg, Some e)
   | (plugins, None) =>
       match checkSelections (PluginSelections cfg) plugins with
       | Some e => (cfg, Some e)
       | None => (addPlugins cfg plugins, None)
       end
   end,
   {| viper := viper st; calls := calls st ++ [CallLoadAllPlugins] |}).
Proof.
  unfold loadAllPlugins, discovered. unfold_M.
  destruct (pluginloader_LoadAllPlugins w _ _ _ _) as [plugins [e|]];
    [reflexivity|].
  by destruct (checkSelections _ plugins).
Qed.

(** The three ways [LoadConfig] ends. *)
Lemma run_LoadConfig_eq w :
  run_LoadConfig builtin buildinfo_Version w =
  match document w with
  | inl e => ((None, Some e), [CallReadInConfig])
  | inr doc =>
      match unmarshalled builtin buildinfo_Version w doc with
      | inl e => ((None, Some e), [CallReadInConfig; CallUnmarshal])
      | inr cfg =>
          let '(cfg', err) :=
            (loadAllPlugins (settled buildinfo_Version w doc cfg) w
               (loadedState w doc [])).1 in
          ((Some cfg', err),
           [CallReadInConfig; CallUnmarshal; CallLoadAllPlugins])
      end
  end.
Proof.
  unfold run_LoadConfig, LoadConfig.
  unfold mbind at 1, M_bind at 1. rewrite configureViper_run.
  unfold mbind at 1, M_bind at 1. rewrite ReadInConfig_run.
  destruct (document w) as [e|doc]; [reflexivity|].
  unfold mbind at 1, M_bind at 1.
  rewrite (surjective_pairing (Unmarshal _ _ _)).
  rewrite Unmarshal_state, Unmarshal_result.
  change (Unmarshal _ w _).1
    with (unmarshalled builtin buildinfo_Version w doc).
  destruct (unmarshalled _ _ w doc) as [e|cfg]; [reflexivity|].
  cbn [viper calls loadedState app].
  unfold mbind at 1, M_bind at 1.
  rewrite (deriveAdvertiseAddress_run _ _ _ (loadedState w doc [])).
  unfold mbind at 1, M_bind at 1.
  rewrite (overrideResultsDir_run _ _ _ (loadedState w doc [])).
  unfold mbind at 1, M_bind at 1.
  rewrite (exactResources_run _ _ _ (loadedState w doc [])) by reflexivity.
  fold (settled buildinfo_Version w doc cfg).
  unfold mbind at 1, M_bind at 1.
  rewrite !loadAllPlugins_run.
  cbn. destruct (discovered w _) as [plugins [e|]]; [reflexivity|].
  by destruct (checkSelections _ plugins).
Qed.

(** Registration touches [LoadedPlugins] only. *)
Lemma addPlugins_fields cfg plugins :
  Resources (addPlugins cfg plugins) = Resources cfg ∧
  ResultsDir (addPlugins cfg plugins) = ResultsDir cfg ∧
  Aggregation (addPlugins cfg plugins) = Aggregation cfg ∧
  Version (addPlugins cfg plugins) = Version cfg ∧
  PluginSelections (addPlugins cfg plugins) = PluginSelections cfg.
Proof.
  unfold addPlugins. revert cfg.
  induction plugins as [|p plugins IH]; intros cfg; [done|].
  cbn [fold_left]. destruct (IH (addPlugin cfg p)) as (-> & -> & -> & -> & ->).
  done.
Qed.

Lemma addPlugins_LoadedPlugins cfg plugins :
  LoadedPlugins (addPlugins cfg plugins) =
  fold_left (fun m p => <[GetName p := p]> m) plugins (LoadedPlugins cfg).
Proof.
  unfold addPlugins. revert cfg.
  induction plugins as [|p plugins IH]; intros cfg; [done|].
  cbn [fold_left]. by rewrite IH.
Qed.

(** What each of the steps of lines 61-87 changes, and what it keeps. *)
Lemma deriveAdvertiseAddress_address cfg w st :
  AdvertiseAddress (Aggregation (deriveAdvertiseAddress cfg w st).1) =
  if decide (AdvertiseAddress (Aggregation cfg) = "")
  then spec_advertiseAddress w (BindPort (Aggregation cfg))
  else AdvertiseAddress (Aggregation cfg).
Proof.
  unfold deriveAdvertiseAddress, LookupEnv, Hostname, spec_advertiseAddress,
    spec_advertiseHost.
  unfold_M.
  destruct (String.eqb_spec (AdvertiseAddress (Aggregation cfg)) "")
    as [Ha|Ha]; [rewrite decide_True by done|by rewrite decide_False].
  destruct (environ w !! "SONOBUOY_ADVERTISE_IP") as [ip|]; [done|].
  destruct (os_Hostname w) as [h e]. cbn.
  destruct (String.eqb_spec h "") as [Hh|Hh];
    [by rewrite decide_True|by rewrite decide_False].
Qed.

Lemma deriveAdvertiseAddress_keeps cfg w st :
  let cfg' := (deriveAdvertiseAddress cfg w st).1 in
  BindPort (Aggregation cfg') = BindPort (Aggregation cfg) ∧
  Resources cfg' = Resources cfg ∧ ResultsDir cfg' = ResultsDir cfg ∧
  LoadedPlugins cfg' = LoadedPlugins cfg.
Proof.
  unfold deriveAdvertiseAddress, LookupEnv, Hostname. unfold_M.
  destruct (String.eqb _ ""); [|done].
  destruct (environ w !! _); [done|].
  destruct (os_Hostname w) as [h e]. by destruct (String.eqb h "").
Qed.

Lemma overrideResultsDir_ResultsDir cfg w st :
  ResultsDir (overrideResultsDir cfg w st).1 =
  match environ w !! "RESULTS_DIR" with
  | Some d => d
  | None => ResultsDir cfg
  end.
Proof.
  unfold overrideResultsDir, LookupEnv. unfold_M.
  by destruct (environ w !! _).
Qed.

Lemma overrideResultsDir_keeps cfg w st :
  let cfg' := (overrideResultsDir cfg w st).1 in
  Aggregation cfg' = Aggregation cfg ∧ Resources cfg' = Resources cfg ∧
  Version cfg' = Version cfg ∧ LoadedPlugins cfg' = LoadedPlugins cfg.
Proof.
  unfold overrideResultsDir, LookupEnv. unfold_M.
  by destruct (environ w !! _).
Qed.

Lemma exactResources_Resources cfg w doc :
  Resources (exactResources cfg w (loadedState w doc [])).1 =
  match docLookup doc "Resources" with
  | Some v => ToStringSlice (Some v)
  | None => Resources cfg
  end.
Proof.
  unfold exactResources, IsSet, GetStringSlice, find. unfold_M.
  cbn [viper loadedState].
  rewrite lookupKey_loaderViper by (by vm_compute).
  destruct (docLookup doc "Resources") as [v|] eqn:Hd.
  - rewrite bool_decide_eq_true_2 by eauto. cbn.
    by rewrite lookupKey_loaderViper, Hd by (by vm_compute).
  - by rewrite bool_decide_eq_false_2 by (by intros [? ?]).
Qed.

Lemma exactResources_keeps cfg w st :
  let cfg' := (exactResources cfg w st).1 in
  Aggregation cfg' = Aggregation cfg ∧ ResultsDir cfg' = ResultsDir cfg ∧
  Version cfg' = Version cfg ∧ LoadedPlugins cfg' = LoadedPlugins cfg.
Proof.
  unfold exactResources, IsSet, GetStringSlice, find. unfold_M.
  by case_bool_decide.
Qed.

(** The fields of the configuration after line 87. *)
Lemma settled_Version w doc cfg :
  Version (settled buildinfo_Version w doc cfg) = buildinfo_Version.
Proof.
  unfold settled. cbv zeta.
  destruct (exactResources_keeps
    (overrideResultsDir (set_Version buildinfo_Version
       (deriveAdvertiseAddress cfg w (loadedState w doc [])).1)
       w (loadedState w doc [])).1 w (loadedState w doc []))
    as (_ & _ & -> & _).
  destruct (overrideResultsDir_keeps
    (set_Version buildinfo_Version
       (deriveAdvertiseAddress cfg w (loadedState w doc [])).1)
    w (loadedState w doc [])) as (_ & _ & -> & _).
  reflexivity.
Qed.

Lemma settled_ResultsDir w doc cfg :
  ResultsDir (settled buildinfo_Version w doc cfg) =
  match environ w !! "RESULTS_DIR" with
  | Some d => d
  | None => ResultsDir cfg
  end.
Proof.
  unfold settled. cbv zeta.
  destruct (exactResources_keeps
    (overrideResultsDir (set_Version buildinfo_Version
       (deriveAdvertiseAddress cfg w (loadedState w doc [])).1)
       w (loadedState w doc [])).1 w (loadedState w doc []))
    as (_ & -> & _ & _).
  rewrite overrideResultsDir_ResultsDir. cbn [ResultsDir set_Version].
  destruct (deriveAdvertiseAddress_keeps cfg w (loadedState w doc []))
    as (_ & _ & -> & _).
  reflexivity.
Qed.

Lemma settled_Resources w doc cfg :
  Resources (settled buildinfo_Version w doc cfg) =
  match docLookup doc "Resources" with
  | Some v => ToStringSlice (Some v)
  | None => Resources cfg
  end.
Proof.
  unfold settled. cbv zeta. rewrite exactResources_Resources.
  destruct (overrideResultsDir_keeps
    (set_Version buildinfo_Version
       (deriveAdvertiseAddress cfg w (loadedState w doc [])).1)
    w (loadedState w doc [])) as (_ & -> & _ & _).
  cbn [Resources set_Version].
  destruct (deriveAdvertiseAddress_keeps cfg w (loadedState w doc []))
    as (_ & -> & _ & _).
  reflexivity.
Qed.

Lemma settled_Aggregation w doc cfg :
  BindPort (Aggregation (settled buildinfo_Version w doc cfg)) =
    BindPort (Aggregation cfg) ∧
  AdvertiseAddress (Aggregation (settled buildinfo_Version w doc cfg)) =
    if decide (AdvertiseAddress (Aggregation cfg) = "")
    then spec_advertiseAddress w (BindPort (Aggregation cfg))
    else AdvertiseAddress (Aggregation cfg).
Proof.
  unfold settled. cbv zeta.
  destruct (exactResources_keeps
    (overrideResultsDir (set_Version buildinfo_Version
       (deriveAdvertiseAddress cfg w (loadedState w doc [])).1)
       w (loadedState w doc [])).1 w (loadedState w doc []))
    as (-> & _ & _ & _).
  destruct (overrideResultsDir_keeps
    (set_Version buildinfo_Version
       (deriveAdvertiseAddress cfg w (loadedState w doc [])).1)
    w (loadedState w doc [])) as (-> & _ & _ & _).
  cbn [Aggregation set_Version].
  rewrite deriveAdvertiseAddress_address.
  destruct (deriveAdvertiseAddress_keeps cfg w (loadedState w doc []))
    as (-> & _ & _ & _).
  done.
Qed.

Lemma settled_LoadedPlugins w doc cfg :
  LoadedPlugins (settled buildinfo_Version w doc cfg) = LoadedPlugins cfg.
Proof.
  unfold settled. cbv zeta.
  destruct (exactResources_keeps
    (overrideResultsDir (set_Version buildinfo_Version
       (deriveAdvertiseAddress cfg w (loadedState w doc [])).1)
       w (loadedState w doc [])).1 w (loadedState w doc []))
    as (_ & _ & _ & ->).
  destruct (overrideResultsDir_keeps
    (set_Version buildinfo_Version
       (deriveAdvertiseAddress cfg w (loadedState w doc [])).1)
    w (loadedState w doc [])) as (_ & _ & _ & ->).
  cbn [LoadedPlugins set_Version].
  destruct (deriveAdvertiseAddress_keeps cfg w (loadedState w doc []))
    as (_ & _ & _ & ->).
  reflexivity.
Qed.

(** What [Unmarshal] makes of the document, field by field. *)
Lemma unmarshalled_fields w doc cfg :
  unmarshalled builtin buildinfo_Version w doc = inr cfg →
  decodeValue "ResultsDir" decodeString (defaultResultsDir builtin)
    (docLookup doc "ResultsDir") = inr (ResultsDir cfg) ∧
  (docLookup doc "Resources" = None →
   Resources cfg = defaultResources builtin) ∧
  decodeValue "Aggregation.AdvertiseAddress" decodeString ""
    (docLookup doc "Aggregation.AdvertiseAddress")
    = inr (AdvertiseAddress (Aggregation cfg)) ∧
  LoadedPlugins cfg = ∅.
Proof.
  intros Hu. apply Unmarshal_fields in Hu as (Hrd & Hrs & _ & Haa & _ & Hlp).
  cbn [viper loadedState] in *.
  rewrite lookupKey_loaderViper in Hrd, Hrs, Haa by (by vm_compute).
  repeat split; try done.
  intros Hnone. rewrite Hnone in Hrs. cbn in Hrs. congruence.
Qed.

(** A list of strings decodes to itself. *)
Lemma ToStringSlice_strings (l : list string) :
  ToStringSlice (Some (VArr (VStr <$> l))) = l.
Proof.
  unfold ToStringSlice, decodeSlice.
  assert (decodeAll decodeString (VStr <$> l) = Some l) as ->; [|done].
  induction l as [|x l IH]; [done|]. cbn. by rewrite IH.
Qed.

(** When [LoadConfig] returns a configuration, the document was read and
    decoded, and the configuration is the one of line 87, with the
    discovered plugins registered if there is no error. *)
Lemma run_LoadConfig_Some w cfg err cs :
  run_LoadConfig builtin buildinfo_Version w = ((Some cfg, err), cs) →
  ∃ doc cfg1,
    document w = inr doc ∧
    unmarshalled builtin buildinfo_Version w doc = inr cfg1 ∧
    ((cfg = settled buildinfo_Version w doc cfg1 ∧ is_Some err) ∨
     (∃ plugins,
        discovered w (settled buildinfo_Version w doc cfg1) = (plugins, None) ∧
        cfg = addPlugins (settled buildinfo_Version w doc cfg1) plugins ∧
        err = None)).
Proof.
  rewrite run_LoadConfig_eq.
  destruct (document w) as [e|doc]; [discriminate|].
  destruct (unmarshalled _ _ w doc) as [e|cfg1] eqn:Hu; [discriminate|].
  rewrite loadAllPlugins_run. cbn [fst].
  destruct (discovered w _) as [plugins [e|]] eqn:Hd.
  - intros [= <- <- <-]. exists doc, cfg1. eauto 10.
  - destruct (checkSelections _ plugins) as [e|].
    + intros [= <- <- <-]. exists doc, cfg1. eauto 10.
    + intros [= <- <- <-]. exists doc, cfg1. eauto 10.
Qed.

(** The fields other than [LoadedPlugins] are those of line 87. *)
Lemma run_LoadConfig_fields w cfg err cs :
  run_LoadConfig builtin buildinfo_Version w = ((Some cfg, err), cs) →
  ∃ doc cfg1,
    document w = inr doc ∧
    unmarshalled builtin buildinfo_Version w doc = inr cfg1 ∧
    Resources cfg = Resources (settled buildinfo_Version w doc cfg1) ∧
    ResultsDir cfg = ResultsDir (settled buildinfo_Version w doc cfg1) ∧
    Aggregation cfg = Aggregation (settled buildinfo_Version w doc cfg1) ∧
    Version cfg = Version (settled buildinfo_Version w doc cfg1).
Proof.
  intros (doc & cfg1 & Hdoc & Hu & [[-> _]|(plugins & _ & -> & _)])
    %run_LoadConfig_Some; exists doc, cfg1; [done|].
  by destruct (addPlugins_fields (settled buildinfo_Version w doc cfg1) plugins)
    as (-> & -> & -> & -> & _).
Qed.

(** C1. If the document defines the resource-list key, the resolved
    configuration's resource list is exactly the document's list, the empty
    list included (neither the default nor the default merged with it); if
    the document omits the key, it is exactly the default list. *)
Theorem LoadConfig_resourceList w doc cfg err cs :
  document w = inr doc →
  run_LoadConfig builtin buildinfo_Version w = ((Some cfg, err), cs) →
  (∀ l, docLookup doc "Resources" = Some (VArr (VStr <$> l)) →
        Resources cfg = l) ∧
  (docLookup doc "Resources" = None →
   Resources cfg = defaultResources builtin).
Proof.
  intros Hdoc (doc' & cfg1 & Hdoc' & Hu & -> & _)%run_LoadConfig_fields.
  assert (doc' = doc) as -> by congruence.
  rewrite settled_Resources. split.
  - intros l ->. apply ToStringSlice_strings.
  - intros Hnone. rewrite Hnone.
    apply unmarshalled_fields in Hu as (_ & Hrs & _). auto.
Qed.


(** C10. Derivation is triggered by the empty value, not by the absent key:
    a document that sets the advertise address to the empty string gets the
    address a document without the key gets, and an address that is not
    empty is left as the document has it. *)
Theorem LoadConfig_advertiseAddress_trigger w doc cfg err cs :
  document w = inr doc →
  run_LoadConfig builtin buildinfo_Version w = ((Some cfg, err), cs) →
  (docLookup doc "Aggregation.AdvertiseAddress" = None ∨
   docLookup doc "Aggregation.AdvertiseAddress" = Some (VStr "") →
   AdvertiseAddress (Aggregation cfg) =
   spec_advertiseAddress w (BindPort (Aggregation cfg))) ∧
  (∀ a, a ≠ "" →
        docLookup doc "Aggregation.AdvertiseAddress" = Some (VStr a) →
        AdvertiseAddress (Aggregation cfg) = a).
Proof.
  intros Hdoc (doc' & cfg1 & Hdoc' & Hu & _ & _ & -> & _)%run_LoadConfig_fields.
  assert (doc' = doc) as -> by congruence.
  apply unmarshalled_fields in Hu as (_ & _ & Haa & _).
  destruct (settled_Aggregation w doc cfg1) as [-> ->].
  split.
  - intros [Hd|Hd]; rewrite Hd in Haa; cbn in Haa; injection Haa as Haa;
      by rewrite <- Haa, decide_True.
  - intros a Ha Hd. rewrite Hd in Haa. cbn in Haa. injection Haa as Haa.
    rewrite <- Haa. by rewrite decide_False.
Qed.

(** C6. The version of the resolved configuration is the build's version,
    whatever the document and the environment hold. *)
Theorem LoadConfig_version w cfg err cs :
  run_LoadConfig builtin buildinfo_Version w = ((Some cfg, err), cs) →
  Version cfg = buildinfo_Version.
Proof.
  intros (doc & cfg1 & _ & _ & _ & _ & _ & ->)%run_LoadConfig_fields.
  apply settled_Version.
Qed.

(** C7. The results directory is the value of the environment variable if
    it is set; otherwise the document's value if it has one; otherwise the
    default. *)
Theorem LoadConfig_resultsDirectory w doc cfg err cs :
  document w = inr doc →
  run_LoadConfig builtin buildinfo_Version w = ((Some cfg, err), cs) →
  match environ w !! "RESULTS_DIR" with
  | Some d => ResultsDir cfg = d
  | None =>
      (∀ d, docLookup doc "ResultsDir" = Some (VStr d) → ResultsDir cfg = d) ∧
      (docLookup doc "ResultsDir" = None →
       ResultsDir cfg = defaultResultsDir builtin)
  end.
Proof.
  intros Hdoc (doc' & cfg1 & Hdoc' & Hu & _ & -> & _)%run_LoadConfig_fields.
  assert (doc' = doc) as -> by congruence.
  rewrite settled_ResultsDir.
  destruct (environ w !! "RESULTS_DIR"); [done|].
  apply unmarshalled_fields in Hu as (Hrd & _).
  split.
  - intros d Hd. rewrite Hd in Hrd. cbn in Hrd. congruence.
  - intros Hd. rewrite Hd in Hrd. cbn in Hrd. congruence.
Qed.

(** ** The selection check *)

Lemma selectionFound_fold sel plugins (found : bool) :
  fold_left
    (fun found p => if String.eqb (GetName p) (Name sel) then true else found)
    plugins found = true ↔
  found = true ∨ matched plugins sel.
Proof.
  unfold matched. revert found.
  induction plugins as [|p plugins IH]; intros found; cbn [fold_left].
  - rewrite fmap_nil. split; [by left|]. intros [?|Hin]; [done|].
    by apply elem_of_nil in Hin.
  - rewrite IH, fmap_cons, elem_of_cons.
    destruct (String.eqb_spec (GetName p) (Name sel)) as [Hn|Hn].
    + split; [|by left]. intros _. right. by left.
    + split.
      * intros [?|Hin]; [by left|]. right. by right.
      * intros [?|[Heq|Hin]]; [by left|done|by right].
Qed.

Lemma selectionFound_matched sel plugins :
  selectionFound sel plugins = true ↔ matched plugins sel.
Proof.
  unfold selectionFound. rewrite selectionFound_fold.
  split; [by intros [?|?]|by right].
Qed.

Lemma checkSelections_None sels plugins :
  checkSelections sels plugins = None ↔ Forall (matched plugins) sels.
Proof.
  induction sels as [|sel sels IH]; cbn [checkSelections].
  - split; [constructor|done].
  - destruct (selectionFound sel plugins) eqn:Hf; cbn [negb].
    + rewrite IH. apply selectionFound_matched in Hf.
      split; [by constructor|]. intros Hall. by inversion Hall.
    + split; [done|]. intros Hall. inversion Hall as [|? ? Hm]; subst.
      apply selectionFound_matched in Hm. congruence.
Qed.

Lemma checkSelections_first pre sel post plugins :
  Forall (matched plugins) pre →
  ¬ matched plugins sel →
  checkSelections (pre ++ sel :: post)%list plugins =
  Some (Errorf_plugin_does_not_exist (Name sel)).
Proof.
  intros Hpre Hsel.
  induction Hpre as [|s pre Hs Hpre IH]; cbn [checkSelections app].
  - destruct (selectionFound sel plugins) eqn:Hf; [|done].
    by apply selectionFound_matched in Hf.
  - apply selectionFound_matched in Hs. by rewrite Hs.
Qed.

(** Among selections of which one is unmatched, there is a first. *)
Lemma first_unmatched sels plugins :
  Exists (fun sel => ¬ matched plugins sel) sels →
  ∃ pre sel post,
    sels = (pre ++ sel :: post)%list ∧
    Forall (matched plugins) pre ∧ ¬ matched plugins sel.
Proof.
  induction sels as [|s sels IH]; intros Hex; [by inversion Hex|].
  destruct (selectionFound s plugins) eqn:Hf.
  - apply selectionFound_matched in Hf.
    inversion Hex as [? ? Hs|? ? Hrest]; subst; [done|].
    destruct (IH Hrest) as (pre & sel & post & -> & Hpre & Hsel).
    exists (s :: pre), sel, post. split; [done|]. split; [by constructor|done].
  - exists [], s, sels. split; [done|]. split; [constructor|].
    intros Hm%selectionFound_matched. congruence.
Qed.

(** Strings with the same tail: the heads are equal. *)
Lemma string_length_app (a b : string) :
  String.length (a +:+ b) = (String.length a + String.length b)%nat.
Proof. induction a as [|c a IH]; simpl; [done|]. by f_equal. Qed.

Lemma string_app_inv_tail (a b s : string) : a +:+ s = b +:+ s → a = b.
Proof.
  revert b. induction a as [|c a IH]; intros [|d b] Heq; simpl in Heq.
  - done.
  - apply (f_equal String.length) in Heq. simpl in Heq.
    rewrite !string_length_app in Heq. simpl in Heq. lia.
  - apply (f_equal String.length) in Heq. simpl in Heq.
    rewrite !string_length_app in Heq. simpl in Heq. lia.
  - injection Heq as -> Heq. f_equal. by apply IH.
Qed.

(** C2. If some selection has no discovered plugin of exactly its name,
    validation fails with the error that names the first such selection, in
    the order of the selections: the message is "Configured plugin", the
    name of that selection and "does not exist", and it is the message of no
    other name. *)
Theorem loadAllPlugins_first_missing w st cfg plugins :
  discovered w cfg = (plugins, None) →
  Exists (fun sel => ¬ matched plugins sel) (PluginSelections cfg) →
  ∃ pre sel post,
    PluginSelections cfg = (pre ++ sel :: post)%list ∧
    Forall (matched plugins) pre ∧
    ¬ matched plugins sel ∧
    (loadAllPlugins cfg w st).1.2 =
      Some ("Configured plugin " +:+ Name sel +:+ " does not exist") ∧
    ∀ name,
      (loadAllPlugins cfg w st).1.2 =
        Some ("Configured plugin " +:+ name +:+ " does not exist") →
      name = Name sel.
Proof.
  intros Hd (pre & sel & post & Hsels & Hpre & Hsel)%first_unmatched.
  exists pre, sel, post.
  assert ((loadAllPlugins cfg w st).1.2 =
          Some ("Configured plugin " +:+ Name sel +:+ " does not exist"))
    as Herr.
  { rewrite loadAllPlugins_run, Hd, Hsels. cbn [fst].
    by rewrite checkSelections_first. }
  repeat split; try done.
  intros name. rewrite Herr. simpl. intros [= Heq].
  symmetry.
  exact (string_app_inv_tail (Name sel) name " does not exist" Heq).
Qed.

(** ** Registration *)

Lemma names_NoDup_inj plugins p q :
  NoDup (GetName <$> plugins) →
  p ∈ plugins → q ∈ plugins → GetName p = GetName q → p = q.
Proof.
  induction plugins as [|x plugins IH]; intros Hnd Hp Hq Hn.
  - by apply elem_of_nil in Hp.
  - rewrite fmap_cons in Hnd. apply NoDup_cons in Hnd as [Hx Hnd].
    apply elem_of_cons in Hp as [->|Hp], Hq as [->|Hq]; try done.
    + exfalso. apply Hx. rewrite Hn. by apply list_elem_of_fmap_2.
    + exfalso. apply Hx. rewrite <- Hn. by apply list_elem_of_fmap_2.
    + by apply IH.
Qed.

Lemma registered_lookup plugins (m : gmap string Plugin) p :
  p ∈ plugins →
  ∃ q, fold_left (fun m p => <[GetName p := p]> m) plugins m !! GetName p
         = Some q ∧
       q ∈ plugins ∧ GetName q = GetName p.
Proof.
  induction plugins as [|x plugins IH] using rev_ind; intros Hp.
  - by apply elem_of_nil in Hp.
  - rewrite fold_left_app. cbn [fold_left].
    destruct (decide (GetName x = GetName p)) as [Hn|Hn].
    + exists x. rewrite Hn, lookup_insert_eq.
      split; [done|]. split; [|done]. apply elem_of_app. right. by left.
    + apply elem_of_app in Hp as [Hp|Hp].
      * destruct (IH Hp) as (q & Hq & Hin & Hqn). exists q.
        rewrite lookup_insert_ne by done.
        split; [done|]. split; [|done]. apply elem_of_app. by left.
      * apply list_elem_of_singleton in Hp as ->. done.
Qed.

(** C4. When every selection is matched, validation succeeds and every
    discovered plugin, selected or not, is registered under its name: the
    set holds under that name a discovered handle of that name, which is the
    handle itself when no name is discovered twice. *)
Theorem loadAllPlugins_registers_all w st cfg plugins :
  discovered w cfg = (plugins, None) →
  Forall (matched plugins) (PluginSelections cfg) →
  ∃ cfg',
    (loadAllPlugins cfg w st).1 = (cfg', None) ∧
    ∀ p, p ∈ plugins →
      ∃ q, LoadedPlugins cfg' !! GetName p = Some q ∧
           q ∈ plugins ∧ GetName q = GetName p ∧
           (NoDup (GetName <$> plugins) → q = p).
Proof.
  intros Hd Hall%checkSelections_None.
  exists (addPlugins cfg plugins).
  rewrite loadAllPlugins_run, Hd, Hall. split; [done|].
  intros p Hp. rewrite addPlugins_LoadedPlugins.
  destruct (registered_lookup plugins (LoadedPlugins cfg) p Hp)
    as (q & Hq & Hin & Hn).
  exists q. repeat split; try done.
  intros Hnd. by apply (names_NoDup_inj plugins).
Qed.

(** C5. When validation fails, nothing is registered: [loadAllPlugins]
    leaves the configuration as it was, and the configuration [LoadConfig]
    returns with the error has no loaded plugin. *)
Theorem loadAllPlugins_failure_registers_nothing w :
  (∀ cfg st plugins,
     discovered w cfg = (plugins, None) →
     ¬ Forall (matched plugins) (PluginSelections cfg) →
     ∃ e, (loadAllPlugins cfg w st).1 = (cfg, Some e)) ∧
  (∀ cfg e cs,
     run_LoadConfig builtin buildinfo_Version w = ((Some cfg, Some e), cs) →
     LoadedPlugins cfg = ∅).
Proof.
  split.
  - intros cfg st plugins Hd Hnot. rewrite loadAllPlugins_run, Hd. cbn [fst].
    destruct (checkSelections _ plugins) as [e|] eqn:Hc; [by exists e|].
    by apply checkSelections_None in Hc.
  - intros cfg e cs
      (doc & cfg1 & _ & Hu & [[-> _]|(? & _ & _ & [=])])%run_LoadConfig_Some.
    rewrite settled_LoadedPlugins.
    by apply unmarshalled_fields in Hu as (_ & _ & _ & ->).
Qed.

(** ** The order of the discovered plugins *)

Lemma matched_Permutation plugins plugins' sel :
  plugins ≡ₚ plugins' → matched plugins sel → matched plugins' sel.
Proof.
  unfold matched. intros Hp Hin. by rewrite <- Hp.
Qed.

Lemma checkSelections_Permutation sels plugins plugins' :
  plugins ≡ₚ plugins' →
  checkSelections sels plugins = checkSelections sels plugins'.
Proof.
  intros Hp. induction sels as [|sel sels IH]; cbn [checkSelections]; [done|].
  assert (selectionFound sel plugins = selectionFound sel plugins') as ->;
    [|by rewrite IH].
  destruct (selectionFound sel plugins) eqn:Hf,
           (selectionFound sel plugins') eqn:Hf'; try done.
  - apply selectionFound_matched, (matched_Permutation _ plugins') in Hf;
      [|done].
    apply selectionFound_matched in Hf. congruence.
  - apply selectionFound_matched, (matched_Permutation _ plugins) in Hf';
      [|done].
    apply selectionFound_matched in Hf'. congruence.
Qed.

Lemma registered_dom plugins (m : gmap string Plugin) :
  dom (fold_left (fun m p => <[GetName p := p]> m) plugins m) =
  list_to_set (GetName <$> plugins) ∪ dom m.
Proof.
  revert m. induction plugins as [|p plugins IH]; intros m; cbn [fold_left].
  - by rewrite fmap_nil, list_to_set_nil, (left_id_L ∅ (∪)).
  - rewrite IH, dom_insert_L, fmap_cons, list_to_set_cons.
    by rewrite (assoc_L (∪)), (comm_L (∪) (list_to_set _) {[GetName p]}).
Qed.

Lemma registered_Permutation plugins plugins' (m : gmap string Plugin) :
  plugins ≡ₚ plugins' →
  NoDup (GetName <$> plugins) →
  fold_left (fun m p => <[GetName p := p]> m) plugins m =
  fold_left (fun m p => <[GetName p := p]> m) plugins' m.
Proof.
  intros Hp. revert m.
  induction Hp as [|p l l' Hp IH|p q l|l l' l'' Hp IH Hp' IH'];
    intros m Hnd; cbn [fold_left].
  - done.
  - rewrite fmap_cons in Hnd. apply NoDup_cons in Hnd as [_ Hnd]. by apply IH.
  - rewrite !fmap_cons in Hnd.
    apply NoDup_cons in Hnd as [Hq _].
    rewrite insert_insert_ne; [done|].
    intros Hn. apply Hq. rewrite Hn. left.
  - rewrite IH by done. apply IH'. by rewrite <- Hp.
Qed.

(** C9. Validation does not depend on the order of the discovered plugins:
    for two discovered lists that are permutations of each other the error
    is the same and the same names are registered, and the resulting
    configuration is the same when no name is discovered twice. *)
Theorem loadAllPlugins_permutation w w' st cfg plugins plugins' :
  discovered w cfg = (plugins, None) →
  discovered w' cfg = (plugins', None) →
  plugins ≡ₚ plugins' →
  (loadAllPlugins cfg w st).1.2 = (loadAllPlugins cfg w' st).1.2 ∧
  dom (LoadedPlugins (loadAllPlugins cfg w st).1.1) =
    dom (LoadedPlugins (loadAllPlugins cfg w' st).1.1) ∧
  (NoDup (GetName <$> plugins) →
   (loadAllPlugins cfg w st).1 = (loadAllPlugins cfg w' st).1).
Proof.
  intros Hd Hd' Hp. rewrite !loadAllPlugins_run, Hd, Hd'. cbn [fst].
  rewrite (checkSelections_Permutation _ plugins plugins' Hp).
  destruct (checkSelections _ plugins') as [e|]; [done|]. cbn [fst snd].
  split; [done|]. split.
  - rewrite !addPlugins_LoadedPlugins, !registered_dom. by rewrite Hp.
  - intros Hnd. f_equal. unfold addPlugins.
    assert (∀ ps c, fold_left addPlugin ps c =
      set_LoadedPlugins
        (fold_left (fun m p => <[GetName p := p]> m) ps (LoadedPlugins c)) c)
      as Hfold.
    { induction ps as [|x ps IH]; intros c; cbn [fold_left].
      - by destruct c.
      - by rewrite IH. }
    by rewrite !Hfold, (registered_Permutation plugins plugins').
Qed.

(** C8. [LoadConfig] fails fast.  A failed read, a failed decoding, a
    failed discovery and a failed validation each end the run with exactly
    that error and with no later collaborator called, each collaborator
    being called at most once; the run returns no error only when every
    stage has succeeded, with the discovered plugins registered. *)
Theorem LoadConfig_fails_fast w :
  (∀ e, document w = inl e →
     run_LoadConfig builtin buildinfo_Version w =
       ((None, Some e), [CallReadInConfig])) ∧
  (∀ doc e,
     document w = inr doc →
     unmarshalled builtin buildinfo_Version w doc = inl e →
     run_LoadConfig builtin buildinfo_Version w =
       ((None, Some e), [CallReadInConfig; CallUnmarshal])) ∧
  (∀ doc cfg plugins e,
     document w = inr doc →
     unmarshalled builtin buildinfo_Version w doc = inr cfg →
     discovered w (settled buildinfo_Version w doc cfg) = (plugins, Some e) →
     run_LoadConfig builtin buildinfo_Version w =
       ((Some (settled buildinfo_Version w doc cfg), Some e),
        [CallReadInConfig; CallUnmarshal; CallLoadAllPlugins])) ∧
  (∀ doc cfg plugins e,
     document w = inr doc →
     unmarshalled builtin buildinfo_Version w doc = inr cfg →
     discovered w (settled buildinfo_Version w doc cfg) = (plugins, None) →
     checkSelections
       (PluginSelections (settled buildinfo_Version w doc cfg)) plugins
       = Some e →
     run_LoadConfig builtin buildinfo_Version w =
       ((Some (settled buildinfo_Version w doc cfg), Some e),
        [CallReadInConfig; CallUnmarshal; CallLoadAllPlugins])) ∧
  (∀ r cs,
     run_LoadConfig builtin buildinfo_Version w = ((r, None), cs) →
     ∃ doc cfg plugins,
       document w = inr doc ∧
       unmarshalled builtin buildinfo_Version w doc = inr cfg ∧
       discovered w (settled buildinfo_Version w doc cfg) = (plugins, None) ∧
       Forall (matched plugins)
         (PluginSelections (settled buildinfo_Version w doc cfg)) ∧
       r = Some (addPlugins (settled buildinfo_Version w doc cfg) plugins) ∧
       cs = [CallReadInConfig; CallUnmarshal; CallLoadAllPlugins]).
Proof.
  repeat split.
  - intros e Hdoc. by rewrite run_LoadConfig_eq, Hdoc.
  - intros doc e Hdoc Hu. by rewrite run_LoadConfig_eq, Hdoc, Hu.
  - intros doc cfg plugins e Hdoc Hu Hd.
    by rewrite run_LoadConfig_eq, Hdoc, Hu, loadAllPlugins_run, Hd.
  - intros doc cfg plugins e Hdoc Hu Hd Hc.
    by rewrite run_LoadConfig_eq, Hdoc, Hu, loadAllPlugins_run, Hd, Hc.
  - intros r cs. rewrite run_LoadConfig_eq.
    destruct (document w) as [e|doc]; [discriminate|].
    destruct (unmarshalled _ _ w doc) as [e|cfg] eqn:Hu; [discriminate|].
    rewrite loadAllPlugins_run. cbn [fst].
    destruct (discovered w _) as [plugins [e|]] eqn:Hd; [discriminate|].
    destruct (checkSelections _ plugins) as [e|] eqn:Hc; [discriminate|].
    intros [= <- <-]. exists doc, cfg, plugins.
    apply checkSelections_None in Hc. done.
Qed.
(** ** More on loadAllPlugins *)

Context {RestConfig Clientset : Type}.

Implicit Types (k : Kube (RestConfig:=RestConfig) (Clientset:=Clientset)).

(** Registration keeps every field that is not [LoadedPlugins]. *)
Lemma addPlugins_keeps cfg plugins :
  Kubeconfig (addPlugins cfg plugins) = Kubeconfig cfg ∧
  PluginSearchPath (addPlugins cfg plugins) = PluginSearchPath cfg ∧
  PluginNamespace (addPlugins cfg plugins) = PluginNamespace cfg.
Proof.
  unfold addPlugins. revert cfg.
  induction plugins as [|p plugins IH]; intros cfg; [done|].
  cbn [fold_left]. by destruct (IH (addPlugin cfg p)) as (-> & -> & ->).
Qed.

(** X1. [loadAllPlugins] returns no error exactly when discovery succeeds
    and every selection has the name of a discovered plugin. *)
Theorem loadAllPlugins_succeeds_iff cfg w st :
  (loadAllPlugins cfg w st).1.2 = None ↔
  ∃ plugins,
    discovered w cfg = (plugins, None) ∧
    Forall (matched plugins) (PluginSelections cfg).
Proof.
  rewrite loadAllPlugins_run. cbn [fst].
  destruct (discovered w cfg) as [plugins [e|]] eqn:Hd; cbn [snd].
  - split; [done|]. by intros (? & [=] & _).
  - destruct (checkSelections _ plugins) as [e|] eqn:Hc; cbn [snd].
    + split; [done|]. intros (ps & [= <-] & Hall).
      apply checkSelections_None in Hall. congruence.
    + split; [|done]. intros _. exists plugins.
      by apply checkSelections_None in Hc.
Qed.

(** X2. [loadAllPlugins] changes no field of the configuration other than
    [LoadedPlugins], whether it fails or succeeds. *)
Theorem loadAllPlugins_keeps_fields cfg w st :
  let cfg' := (loadAllPlugins cfg w st).1.1 in
  Kubeconfig cfg' = Kubeconfig cfg ∧
  ResultsDir cfg' = ResultsDir cfg ∧
  Resources cfg' = Resources cfg ∧
  Aggregation cfg' = Aggregation cfg ∧
  PluginSelections cfg' = PluginSelections cfg ∧
  PluginSearchPath cfg' = PluginSearchPath cfg ∧
  PluginNamespace cfg' = PluginNamespace cfg ∧
  Version cfg' = Version cfg.
Proof.
  rewrite loadAllPlugins_run. cbn [fst].
  destruct (discovered w cfg) as [plugins [e|]]; [done|].
  destruct (checkSelections _ plugins); [done|]. cbn [fst].
  destruct (addPlugins_fields cfg plugins) as (-> & -> & -> & -> & ->).
  by destruct (addPlugins_keeps cfg plugins) as (-> & -> & ->).
Qed.

(** The handle a list of plugins leaves under a name: the last of that
    name. *)
Lemma registered_last plugins (m : gmap string Plugin) (name : string) :
  fold_left (fun m p => <[GetName p := p]> m) plugins m !! name =
  match last (filter (fun p => GetName p = name) plugins) with
  | Some q => Some q
  | None => m !! name
  end.
Proof.
  induction plugins as [|x plugins IH] using rev_ind; [done|].
  rewrite fold_left_app, filter_app. cbn [fold_left].
  destruct (decide (GetName x = name)) as [Hn|Hn].
  - rewrite filter_cons_True, filter_nil by done.
    rewrite last_snoc, Hn. apply lookup_insert_eq.
  - rewrite filter_cons_False, filter_nil, app_nil_r by done.
    rewrite lookup_insert_ne by done. apply IH.
Qed.

(** X3. After a successful [loadAllPlugins] the set holds, under each name,
    the last discovered handle of that name, and what it held before under
    a name that was not discovered. *)
Theorem loadAllPlugins_lookup cfg cfg' w st plugins name :
  discovered w cfg = (plugins, None) →
  (loadAllPlugins cfg w st).1 = (cfg', None) →
  LoadedPlugins cfg' !! name =
  match last (filter (fun p => GetName p = name) plugins) with
  | Some q => Some q
  | None => LoadedPlugins cfg !! name
  end.
Proof.
  intros Hd. rewrite loadAllPlugins_run, Hd. cbn [fst].
  destruct (checkSelections _ plugins); [discriminate|].
  intros [= <-]. rewrite addPlugins_LoadedPlugins. apply registered_last.
Qed.

(** X14. Discovering more plugins never turns a successful validation
    into a failed one. *)
Theorem loadAllPlugins_more_plugins w w' st cfg plugins plugins' :
  discovered w cfg = (plugins, None) →
  discovered w' cfg = (plugins', None) →
  plugins ⊆ plugins' →
  (loadAllPlugins cfg w st).1.2 = None →
  (loadAllPlugins cfg w' st).1.2 = None.
Proof.
  intros Hd Hd' Hsub. rewrite !loadAllPlugins_run, Hd, Hd'. cbn [fst].
  destruct (checkSelections _ plugins) as [e|] eqn:Hc; [discriminate|].
  intros _. apply checkSelections_None in Hc.
  assert (checkSelections (PluginSelections cfg) plugins' = None) as ->;
    [|done].
  apply checkSelections_None. eapply Forall_impl; [exact Hc|].
  unfold matched. intros sel (p & Hn & Hp)%list_elem_of_fmap.
  rewrite Hn. apply list_elem_of_fmap_2. by apply Hsub.
Qed.

(** X15. The error of line 142 names one plugin: the name can be read back
    from the error. *)
Theorem Errorf_plugin_does_not_exist_inj name name' :
  Errorf_plugin_does_not_exist name = Errorf_plugin_does_not_exist name' →
  name = name'.
Proof.
  unfold Errorf_plugin_does_not_exist. simpl. intros [= Heq].
  exact (string_app_inv_tail name name' " does not exist" Heq).
Qed.

(** ** More on LoadConfig *)

(** Registration does not change what discovery is asked. *)
Lemma discovered_addPlugins w cfg plugins :
  discovered w (addPlugins cfg plugins) = discovered w cfg.
Proof.
  unfold discovered.
  destruct (addPlugins_fields cfg plugins) as (_ & _ & -> & _ & ->).
  by destruct (addPlugins_keeps cfg plugins) as (_ & -> & ->).
Qed.

(** X4. The configuration [LoadConfig] returns carries the inputs its
    plugins were discovered for: discovery, asked with the namespace, the
    search path, the selections and the advertise address of the returned
    configuration, gives the error returned if it fails, and otherwise the
    plugins against which the returned selections were checked. *)
Theorem LoadConfig_discovery_inputs w cfg err cs :
  run_LoadConfig builtin buildinfo_Version w = ((Some cfg, err), cs) →
  match discovered w cfg with
  | (plugins, Some e) => err = Some e
  | (plugins, None) => err = checkSelections (PluginSelections cfg) plugins
  end.
Proof.
  rewrite run_LoadConfig_eq.
  destruct (document w) as [e|doc]; [discriminate|].
  destruct (unmarshalled _ _ w doc) as [e|cfg1]; [discriminate|].
  rewrite loadAllPlugins_run. cbn [fst].
  destruct (discovered w (settled _ w doc cfg1)) as [plugins [e|]] eqn:Hd.
  - intros [= <- <- <-]. by rewrite Hd.
  - destruct (checkSelections _ plugins) as [e|] eqn:Hc.
    + intros [= <- <- <-]. by rewrite Hd.
    + intros [= <- <- <-]. rewrite discovered_addPlugins, Hd.
      by destruct (addPlugins_fields (settled buildinfo_Version w doc cfg1)
                     plugins) as (_ & _ & _ & _ & ->).
Qed.

(** X5. When [LoadConfig] returns without error, the loaded plugins are
    the discovered plugins and nothing else: under each name the set holds
    the last discovered handle of that name, and nothing under a name that
    was not discovered. *)
Theorem LoadConfig_loaded_plugins w cfg cs :
  run_LoadConfig builtin buildinfo_Version w = ((Some cfg, None), cs) →
  ∃ plugins,
    discovered w cfg = (plugins, None) ∧
    ∀ name,
      LoadedPlugins cfg !! name =
      last (filter (fun p => GetName p = name) plugins).
Proof.
  intros (doc & cfg1 & _ & Hu & [[_ [? [=]]]|(plugins & Hd & -> & _)])
    %run_LoadConfig_Some.
  exists plugins. rewrite discovered_addPlugins. split; [done|].
  intros name. rewrite addPlugins_LoadedPlugins, registered_last.
  rewrite settled_LoadedPlugins.
  apply unmarshalled_fields in Hu as (_ & _ & _ & ->).
  rewrite lookup_empty. by destruct (last _).
Qed.

(** X6. [LoadConfig] never returns a nil configuration without an error,
    and the calls it has made tell where it stopped: a nil configuration
    comes after the read alone or after the read and the decoding, a
    configuration after the read, the decoding and the discovery, each made
    once and in this order. *)
Theorem LoadConfig_result_shape w :
  match run_LoadConfig builtin buildinfo_Version w with
  | ((None, None), _) => False
  | ((None, Some _), cs) =>
      cs = [CallReadInConfig] ∨ cs = [CallReadInConfig; CallUnmarshal]
  | ((Some _, _), cs) =>
      cs = [CallReadInConfig; CallUnmarshal; CallLoadAllPlugins]
  end.
Proof.
  rewrite run_LoadConfig_eq.
  destruct (document w) as [e|doc]; [by left|].
  destruct (unmarshalled _ _ w doc) as [e|cfg1]; [by right|].
  by destruct (loadAllPlugins _ w _).1 as [cfg' err].
Qed.

(** What viper finds depends on the world through KUBECONFIG only. *)
Lemma lookupKey_sameInputs w w' forced doc key :
  sameInputs w w' →
  lookupKey w (loaderViper forced doc) key =
  lookupKey w' (loaderViper forced doc) key.
Proof.
  intros (_ & Hk & _). unfold lookupKey, loaderViper.
  cbn [config defaults envBindings].
  destruct (decide (ToLower key = "kubeconfig")) as [->|Hne].
  - rewrite !lookup_singleton_eq. by rewrite Hk.
  - by rewrite !lookup_singleton_ne.
Qed.

Lemma unmarshalled_sameInputs w w' doc :
  sameInputs w w' →
  unmarshalled builtin buildinfo_Version w doc =
  unmarshalled builtin buildinfo_Version w' doc.
Proof.
  intros Hs. pose proof Hs as (Hf & _).
  unfold unmarshalled, loadedState. rewrite <- Hf.
  unfold Unmarshal, andThen, decodeField, decodeSliceField, find.
  unfold_M. cbn.
  repeat (rewrite (lookupKey_sameInputs w w') by done;
          match goal with
          | |- context [match ?d with inl _ => _ | inr _ => _ end] =>
              destruct d; cbn; [reflexivity|]
          end).
  reflexivity.
Qed.

Lemma settled_sameInputs w w' doc cfg :
  sameInputs w w' →
  settled buildinfo_Version w doc cfg = settled buildinfo_Version w' doc cfg.
Proof.
  intros Hs. pose proof Hs as (Hf & _ & Hip & Hrd & Hh & _).
  unfold settled, loadedState. rewrite <- Hf. cbv zeta.
  assert (deriveAdvertiseAddress cfg w
            {| viper := loaderViper (forcedConfigFile w) doc; calls := [] |}
          = deriveAdvertiseAddress cfg w'
            {| viper := loaderViper (forcedConfigFile w) doc; calls := [] |})
    as ->.
  { unfold deriveAdvertiseAddress, LookupEnv, Hostname. unfold_M.
    destruct (String.eqb _ ""); [|done]. rewrite Hip.
    destruct (environ w' !! _); [done|].
    destruct (os_Hostname w) as [h e], (os_Hostname w') as [h' e'].
    cbn in Hh. subst h'. by destruct (String.eqb h ""). }
  set (cfg2 := set_Version _ _).
  assert (overrideResultsDir cfg2 w
            {| viper := loaderViper (forcedConfigFile w) doc; calls := [] |}
          = overrideResultsDir cfg2 w'
            {| viper := loaderViper (forcedConfigFile w) doc; calls := [] |})
    as ->.
  { unfold overrideResultsDir, LookupEnv. unfold_M. rewrite Hrd.
    destruct (environ w' !! "RESULTS_DIR"); reflexivity. }
  set (cfg3 := (overrideResultsDir _ _ _).1).
  unfold exactResources, IsSet, GetStringSlice, find. unfold_M.
  cbn [viper]. rewrite (lookupKey_sameInputs w w') by done.
  case_bool_decide; cbn; [|done].
  by rewrite (lookupKey_sameInputs w w').
Qed.

(** X7. The result of [LoadConfig] depends on the environment only through
    SONOBUOY_CONFIG (where an empty value counts as no value), KUBECONFIG,
    SONOBUOY_ADVERTISE_IP and RESULTS_DIR, and on [os.Hostname] only through
    the name it returns, not through its error. *)
Theorem LoadConfig_sameInputs w w' :
  sameInputs w w' →
  run_LoadConfig builtin buildinfo_Version w =
  run_LoadConfig builtin buildinfo_Version w'.
Proof.
  intros Hs. pose proof Hs as (Hf & _ & _ & _ & _ & Hr & Hl).
  rewrite !run_LoadConfig_eq.
  assert (document w = document w') as <-.
  { unfold document. by rewrite Hf, Hr. }
  destruct (document w) as [e|doc]; [done|].
  rewrite <- (unmarshalled_sameInputs w w') by done.
  destruct (unmarshalled _ _ w doc) as [e|cfg]; [done|].
  rewrite <- (settled_sameInputs w w') by done.
  rewrite !loadAllPlugins_run. cbn [fst].
  assert (discovered w (settled buildinfo_Version w doc cfg) =
          discovered w' (settled buildinfo_Version w doc cfg)) as <-.
  { unfold discovered. by rewrite Hl. }
  done.
Qed.

(** The kubeconfig path in the store of the loader: KUBECONFIG if it is set
    and not empty, else the document's value, else the default of
    line 43. *)
Lemma lookupKey_kubeconfig w forced doc :
  lookupKey w (loaderViper forced doc) "kubeconfig" =
  let stored :=
    match docLookup doc "kubeconfig" with
    | Some v => Some v
    | None => Some (VStr "")
    end in
  match environ w !! "KUBECONFIG" with
  | Some p => if decide (p = "") then stored else Some (VStr p)
  | None => stored
  end.
Proof.
  unfold lookupKey, loaderViper, docLookup.
  cbn [config defaults envBindings].
  change (ToLower "kubeconfig") with "kubeconfig".
  rewrite !lookup_singleton_eq.
  destruct (environ w !! "KUBECONFIG") as [p|]; [|done].
  by destruct (String.eqb_spec p "") as [->|Hp];
    [rewrite decide_True|rewrite decide_False].
Qed.

Lemma Unmarshal_Kubeconfig cfg cfg' w st :
  (Unmarshal cfg w st).1 = inr cfg' →
  decodeValue "Kubeconfig" decodeString (Kubeconfig cfg)
    (lookupKey w (viper st) "kubeconfig") = inr (Kubeconfig cfg').
Proof.
  unfold Unmarshal, andThen, decodeField, decodeSliceField, find. unfold_M. cbn.
  repeat match goal with
  | |- context [match ?d with inl _ => _ | inr _ => _ end] =>
      let E := fresh "E" in destruct d eqn:E; cbn; [discriminate|]
  end.
  cbn. intros [= <-]. cbn. done.
Qed.

Lemma settled_Kubeconfig w doc cfg :
  Kubeconfig (settled buildinfo_Version w doc cfg) = Kubeconfig cfg.
Proof.
  unfold settled, exactResources, overrideResultsDir, deriveAdvertiseAddress,
    IsSet, GetStringSlice, find, LookupEnv, Hostname.
  unfold_M. cbn.
  case_bool_decide; destruct (environ w !! "RESULTS_DIR"); cbn;
    destruct (String.eqb _ ""); try reflexivity;
    destruct (environ w !! _); try reflexivity;
    destruct (os_Hostname w) as [h e]; by destruct (String.eqb h "").
Qed.

(** The kubeconfig path of the configuration [LoadConfig] returns is what
    [Unmarshal] has decoded from the value of the store. *)
Lemma run_LoadConfig_Kubeconfig w doc cfg err cs :
  document w = inr doc →
  run_LoadConfig builtin buildinfo_Version w = ((Some cfg, err), cs) →
  decodeValue "Kubeconfig" decodeString ""
    (lookupKey w (loaderViper (forcedConfigFile w) doc) "kubeconfig")
    = inr (Kubeconfig cfg).
Proof.
  intros Hdoc (doc' & cfg1 & Hdoc' & Hu & Hcfg)%run_LoadConfig_Some.
  assert (doc' = doc) as -> by congruence.
  assert (Kubeconfig cfg = Kubeconfig cfg1) as ->.
  { destruct Hcfg as [[-> _]|(plugins & _ & -> & _)].
    - apply settled_Kubeconfig.
    - destruct (addPlugins_keeps (settled buildinfo_Version w doc cfg1)
                  plugins) as (-> & _).
      apply settled_Kubeconfig. }
  by apply Unmarshal_Kubeconfig in Hu.
Qed.

(** X8. The kubeconfig path of the configuration [LoadConfig] returns is
    the value of KUBECONFIG if it is set and not empty; otherwise it is the
    document's value when that is a string, and empty when the document has
    none. *)
Theorem LoadConfig_kubeconfig w doc cfg err cs :
  document w = inr doc →
  run_LoadConfig builtin buildinfo_Version w = ((Some cfg, err), cs) →
  (∀ p, environ w !! "KUBECONFIG" = Some p → p ≠ "" → Kubeconfig cfg = p) ∧
  (environ w !! "KUBECONFIG" = None ∨ environ w !! "KUBECONFIG" = Some "" →
   (∀ path, docLookup doc "kubeconfig" = Some (VStr path) →
            Kubeconfig cfg = path) ∧
   (docLookup doc "kubeconfig" = None → Kubeconfig cfg = "")).
Proof.
  intros Hdoc Hrun.
  pose proof (run_LoadConfig_Kubeconfig w doc cfg err cs Hdoc Hrun) as Hk.
  rewrite lookupKey_kubeconfig in Hk. cbv zeta in Hk.
  split; [|intros Hunset; split].
  - intros p Hp Hne. rewrite Hp, decide_False in Hk by done.
    cbn in Hk. congruence.
  - intros path Hpath.
    destruct Hunset as [Henv|Henv]; rewrite Henv, ?decide_True, Hpath in Hk
      by done; cbn in Hk; congruence.
  - intros Hnone.
    destruct Hunset as [Henv|Henv]; rewrite Henv, ?decide_True, Hnone in Hk
      by done; cbn in Hk; congruence.
Qed.

(** ** LoadClient *)

(** [LoadClient] without the monad. *)
Lemma LoadClient_run k cfg w st :
  LoadClient k cfg w st =
  (let kubeconfig := ToString (lookupKey w (viper st) "kubeconfig") in
   let '(cfg', r, made) :=
     if (0 <? String.length kubeconfig)%nat then
       (set_Kubeconfig kubeconfig cfg,
        clientcmd_BuildConfigFromFlags k "" kubeconfig,
        [CallBuildConfigFromFlags "" kubeconfig])
     else (cfg, rest_InClusterConfig k, [CallInClusterConfig]) in
   match r with
   | inl err => (cfg', (None, Some err), made)
   | inr config =>
       match kubernetes_NewForConfig k config with
       | inl err => (cfg', (None, Some err), (made ++ [CallNewForConfig])%list)
       | inr clientset =>
           (cfg', (Some clientset, None), (made ++ [CallNewForConfig])%list)
       end
   end, st).
Proof.
  unfold LoadClient, GetString, find. unfold_M. cbv zeta.
  destruct (0 <? String.length _)%nat.
  - destruct (clientcmd_BuildConfigFromFlags k _ _) as [e|c]; [done|].
    by destruct (kubernetes_NewForConfig k c).
  - destruct (rest_InClusterConfig k) as [e|c]; [done|].
    by destruct (kubernetes_NewForConfig k c).
Qed.

Lemma length_pos_nonempty (s : string) :
  (0 <? String.length s)%nat = negb (String.eqb s "").
Proof. by destruct s. Qed.

(** X9. [LoadClient] asks for exactly one REST configuration, from the
    kubeconfig or in-cluster.  If that fails it returns no client and that
    error, and asks for no client; if the configuration is built it asks for
    a client once, after that, and returns the client or the error of that
    call.  So it returns either a client or an error, never both and never
    neither. *)
Theorem LoadClient_result_shape k cfg w st :
  let '(_, (client, err), made) := (LoadClient k cfg w st).1 in
  ∃ first built,
    ((first = CallInClusterConfig ∧ built = rest_InClusterConfig k) ∨
     (∃ path, first = CallBuildConfigFromFlags "" path ∧
              built = clientcmd_BuildConfigFromFlags k "" path)) ∧
    match built with
    | inl e => client = None ∧ err = Some e ∧ made = [first]
    | inr config =>
        made = [first; CallNewForConfig] ∧
        match kubernetes_NewForConfig k config with
        | inl e => client = None ∧ err = Some e
        | inr clientset => client = Some clientset ∧ err = None
        end
    end.
Proof.
  rewrite LoadClient_run. cbn [fst]. cbv zeta.
  destruct (0 <? String.length _)%nat.
  - destruct (clientcmd_BuildConfigFromFlags k _ _) as [e|c] eqn:Hb;
      [|destruct (kubernetes_NewForConfig k c) eqn:Hn].
    + exists (CallBuildConfigFromFlags ""
                (ToString (lookupKey w (viper st) "kubeconfig"))), (inl e).
      split; [right; by eexists|done].
    + exists (CallBuildConfigFromFlags ""
                (ToString (lookupKey w (viper st) "kubeconfig"))), (inr c).
      split; [right; by eexists|]. by rewrite Hn.
    + exists (CallBuildConfigFromFlags ""
                (ToString (lookupKey w (viper st) "kubeconfig"))), (inr c).
      split; [right; by eexists|]. by rewrite Hn.
  - destruct (rest_InClusterConfig k) as [e|c] eqn:Hb;
      [|destruct (kubernetes_NewForConfig k c) eqn:Hn].
    + exists CallInClusterConfig, (inl e). split; [by left|done].
    + exists CallInClusterConfig, (inr c). split; [by left|]. by rewrite Hn.
    + exists CallInClusterConfig, (inr c). split; [by left|]. by rewrite Hn.
Qed.

(** X10. With a kubeconfig path in the store of the loader, from KUBECONFIG
    if it is set and not empty and else from the document, [LoadClient]
    builds the REST configuration from that path with an empty master URL
    and does not ask for the in-cluster configuration; it writes the path
    into the configuration even when building fails, and then asks for no
    client. *)
Theorem LoadClient_kubeconfig_path k cfg w st doc path :
  viper st = loaderViper (forcedConfigFile w) doc →
  path ≠ "" →
  environ w !! "KUBECONFIG" = Some path ∨
  ((environ w !! "KUBECONFIG" = None ∨ environ w !! "KUBECONFIG" = Some "") ∧
   docLookup doc "kubeconfig" = Some (VStr path)) →
  (LoadClient k cfg w st).1 =
  match clientcmd_BuildConfigFromFlags k "" path with
  | inl e =>
      (set_Kubeconfig path cfg, (None, Some e),
       [CallBuildConfigFromFlags "" path])
  | inr config =>
      (set_Kubeconfig path cfg,
       match kubernetes_NewForConfig k config with
       | inl e => (None, Some e)
       | inr clientset => (Some clientset, None)
       end,
       [CallBuildConfigFromFlags "" path; CallNewForConfig])
  end.
Proof.
  intros Hv Hpath Hsrc. rewrite LoadClient_run, Hv, lookupKey_kubeconfig.
  cbv zeta.
  assert (ToString
            match environ w !! "KUBECONFIG" with
            | Some p =>
                if decide (p = "")
                then match docLookup doc "kubeconfig" with
                     | Some v => Some v
                     | None => Some (VStr "")
                     end
                else Some (VStr p)
            | None =>
                match docLookup doc "kubeconfig" with
                | Some v => Some v
                | None => Some (VStr "")
                end
            end = path) as ->.
  { destruct Hsrc as [->|[[->| ->] ->]]; [by rewrite decide_False|done..]. }
  cbn [fst]. rewrite length_pos_nonempty.
  destruct (String.eqb_spec path "") as [?|_]; [done|]. cbn [negb].
  destruct (clientcmd_BuildConfigFromFlags k "" path) as [e|c]; [done|].
  by destruct (kubernetes_NewForConfig k c).
Qed.

(** X11. With KUBECONFIG unset or empty and no kubeconfig path in the
    document (or an empty one), [LoadClient] asks for the in-cluster
    configuration, builds nothing from a file and leaves the configuration
    as it is. *)
Theorem LoadClient_in_cluster k cfg w st doc :
  viper st = loaderViper (forcedConfigFile w) doc →
  environ w !! "KUBECONFIG" = None ∨ environ w !! "KUBECONFIG" = Some "" →
  docLookup doc "kubeconfig" = None ∨
    docLookup doc "kubeconfig" = Some (VStr "") →
  (LoadClient k cfg w st).1 =
  match rest_InClusterConfig k with
  | inl e => (cfg, (None, Some e), [CallInClusterConfig])
  | inr config =>
      (cfg,
       match kubernetes_NewForConfig k config with
       | inl e => (None, Some e)
       | inr clientset => (Some clientset, None)
       end,
       [CallInClusterConfig; CallNewForConfig])
  end.
Proof.
  intros Hv Henv Hdoc. rewrite LoadClient_run, Hv, lookupKey_kubeconfig.
  cbv zeta.
  assert (ToString
            match environ w !! "KUBECONFIG" with
            | Some p =>
                if decide (p = "")
                then match docLookup doc "kubeconfig" with
                     | Some v => Some v
                     | None => Some (VStr "")
                     end
                else Some (VStr p)
            | None =>
                match docLookup doc "kubeconfig" with
                | Some v => Some v
                | None => Some (VStr "")
                end
            end = "") as ->.
  { destruct Henv as [->| ->], Hdoc as [->| ->]; done. }
  cbn [fst String.length Nat.ltb Nat.leb].
  destruct (rest_InClusterConfig k) as [e|c]; [done|].
  by destruct (kubernetes_NewForConfig k c).
Qed.

(** X12. [LoadClient] changes nothing of the configuration but the
    kubeconfig path, and nothing of the viper store. *)
Theorem LoadClient_keeps k cfg w st :
  let cfg' := (LoadClient k cfg w st).1.1.1 in
  ResultsDir cfg' = ResultsDir cfg ∧
  Resources cfg' = Resources cfg ∧
  Aggregation cfg' = Aggregation cfg ∧
  PluginSelections cfg' = PluginSelections cfg ∧
  PluginSearchPath cfg' = PluginSearchPath cfg ∧
  PluginNamespace cfg' = PluginNamespace cfg ∧
  LoadedPlugins cfg' = LoadedPlugins cfg ∧
  Version cfg' = Version cfg ∧
  (LoadClient k cfg w st).2 = st.
Proof.
  rewrite LoadClient_run. cbn [fst snd]. cbv zeta.
  destruct (0 <? String.length _)%nat.
  - destruct (clientcmd_BuildConfigFromFlags k _ _) as [e|c]; [done|].
    by destruct (kubernetes_NewForConfig k c).
  - destruct (rest_InClusterConfig k) as [e|c]; [done|].
    by destruct (kubernetes_NewForConfig k c).
Qed.

(** [LoadConfig] with the state it leaves. *)
Lemma LoadConfig_viper w doc :
  document w = inr doc →
  viper (LoadConfig builtin buildinfo_Version w State_init).2 =
  loaderViper (forcedConfigFile w) doc.
Proof.
  intros Hdoc. unfold LoadConfig.
  unfold mbind at 1, M_bind at 1. rewrite configureViper_run.
  unfold mbind at 1, M_bind at 1. rewrite ReadInConfig_run, Hdoc.
  unfold mbind at 1, M_bind at 1.
  rewrite (surjective_pairing (Unmarshal _ _ _)).
  rewrite Unmarshal_state.
  destruct (Unmarshal _ w _).1 as [e|cfg]; [reflexivity|].
  cbn [viper calls loadedState app].
  unfold mbind at 1, M_bind at 1.
  rewrite (deriveAdvertiseAddress_run _ _ _ (loadedState w doc [])).
  unfold mbind at 1, M_bind at 1.
  rewrite (overrideResultsDir_run _ _ _ (loadedState w doc [])).
  unfold mbind at 1, M_bind at 1.
  rewrite (exactResources_run _ _ _ (loadedState w doc [])) by reflexivity.
  unfold mbind at 1, M_bind at 1.
  rewrite loadAllPlugins_run.
  by destruct (discovered w _) as [plugins [e|]];
    [|destruct (checkSelections _ plugins)].
Qed.

(** X13. Run on the configuration and the store a call of [LoadConfig] has
    left, [LoadClient] leaves the configuration as it is, when the kubeconfig
    path comes from KUBECONFIG or the document gives a string or nothing:
    the path it would write is the one [LoadConfig] has decoded. *)
Theorem LoadConfig_then_LoadClient k w doc cfg err cs :
  document w = inr doc →
  run_LoadConfig builtin buildinfo_Version w = ((Some cfg, err), cs) →
  (∃ p, environ w !! "KUBECONFIG" = Some p ∧ p ≠ "") ∨
  docLookup doc "kubeconfig" = None ∨
  (∃ path, docLookup doc "kubeconfig" = Some (VStr path)) →
  (LoadClient k cfg w
     (LoadConfig builtin buildinfo_Version w State_init).2).1.1.1 = cfg.
Proof.
  intros Hdoc Hrun Hsrc.
  pose proof (run_LoadConfig_Kubeconfig w doc cfg err cs Hdoc Hrun) as Hk.
  assert (lookupKey w (loaderViper (forcedConfigFile w) doc) "kubeconfig"
          = Some (VStr (Kubeconfig cfg))) as Hv.
  { rewrite lookupKey_kubeconfig in *. cbv zeta in *.
    destruct (environ w !! "KUBECONFIG") as [p|] eqn:Henv;
      [destruct (decide (p = "")) as [Hp|Hp]|].
    - destruct Hsrc as [(q & [= <-] & Hq)|[Hd|(path & Hd)]]; [done|..];
        rewrite Hd in *; cbn in Hk; congruence.
    - cbn in Hk. congruence.
    - destruct Hsrc as [(q & [=] & _)|[Hd|(path & Hd)]];
        rewrite Hd in *; cbn in Hk; congruence. }
  rewrite LoadClient_run, (LoadConfig_viper w doc Hdoc), Hv.
  cbn [fst ToString]. cbv zeta.
  destruct (0 <? String.length _)%nat.
  - destruct (clientcmd_BuildConfigFromFlags k _ _) as [e|c];
      [|destruct (kubernetes_NewForConfig k c)]; by destruct cfg.
  - destruct (rest_InClusterConfig k) as [e|c]; [done|].
    by destruct (kubernetes_NewForConfig k c).
Qed.

End Properties.

(** ** The theorems at concrete inputs *)

(** The document sets the resource list to the empty list; plugin "a" is
    selected, "a" and "c" are discovered. *)
Lemma LoadConfig_resourceList_witness :
  let w := example_world (inr {[ "resources" := VArr [] ]}) ∅ "node1"
             ([handle_a; handle_c], None) in
  let cfg := example_config [selection_a] [] "./results" "node1:8080"
               {[ "a" := handle_a; "c" := handle_c ]} in
  document w = inr {[ "resources" := VArr [] ]} ∧
  run_LoadConfig (example_builtin [selection_a]) example_version w =
    ((Some cfg, None), [CallReadInConfig; CallUnmarshal; CallLoadAllPlugins]) ∧
  Resources cfg = [].
Proof.
  intros w cfg.
  assert (Hdoc : document w = inr {[ "resources" := VArr [] ]})
    by reflexivity.
  assert (Hrun : run_LoadConfig (example_builtin [selection_a])
                   example_version w =
                 ((Some cfg, None),
                  [CallReadInConfig; CallUnmarshal; CallLoadAllPlugins]))
    by (vm_compute; reflexivity).
  split; [exact Hdoc|]. split; [exact Hrun|].
  exact (proj1 (LoadConfig_resourceList _ _ w _ cfg _ _ Hdoc Hrun) []
           eq_refl).
Defined.


(** The document sets the advertise address to the empty string. *)
Lemma LoadConfig_advertiseAddress_trigger_witness :
  let doc : Document := {[ "aggregation.advertiseaddress" := VStr "" ]} in
  let w := example_world (inr doc) {[ "SONOBUOY_ADVERTISE_IP" := "10.0.0.5" ]}
             "node1" ([handle_a], None) in
  let cfg := example_config [selection_a] ["Nodes"; "Pods"; "Services"]
               "./results" "10.0.0.5:8080" {[ "a" := handle_a ]} in
  document w = inr doc ∧
  run_LoadConfig (example_builtin [selection_a]) example_version w =
    ((Some cfg, None), [CallReadInConfig; CallUnmarshal; CallLoadAllPlugins]) ∧
  AdvertiseAddress (Aggregation cfg) = spec_advertiseAddress w 8080.
Proof.
  intros doc w cfg.
  assert (Hdoc : document w = inr doc) by reflexivity.
  assert (Hrun : run_LoadConfig (example_builtin [selection_a])
                   example_version w =
                 ((Some cfg, None),
                  [CallReadInConfig; CallUnmarshal; CallLoadAllPlugins]))
    by (vm_compute; reflexivity).
  split; [exact Hdoc|]. split; [exact Hrun|].
  exact (proj1 (LoadConfig_advertiseAddress_trigger _ _ w _ cfg _ _ Hdoc Hrun)
           (or_intror eq_refl)).
Defined.

(** The document tries to set the version. *)
Lemma LoadConfig_version_witness :
  let doc : Document := {[ "version" := VStr "hacked" ]} in
  let w := example_world (inr doc) ∅ "node1" ([handle_a], None) in
  let cfg := example_config [selection_a] ["Nodes"; "Pods"; "Services"]
               "./results" "node1:8080" {[ "a" := handle_a ]} in
  run_LoadConfig (example_builtin [selection_a]) example_version w =
    ((Some cfg, None), [CallReadInConfig; CallUnmarshal; CallLoadAllPlugins]) ∧
  Version cfg = example_version.
Proof.
  intros doc w cfg.
  assert (Hrun : run_LoadConfig (example_builtin [selection_a])
                   example_version w =
                 ((Some cfg, None),
                  [CallReadInConfig; CallUnmarshal; CallLoadAllPlugins]))
    by (vm_compute; reflexivity).
  split; [exact Hrun|].
  exact (LoadConfig_version _ _ w cfg _ _ Hrun).
Defined.

(** The environment and the document both give a results directory. *)
Lemma LoadConfig_resultsDirectory_witness :
  let doc : Document := {[ "resultsdir" := VStr "/doc" ]} in
  let w := example_world (inr doc) {[ "RESULTS_DIR" := "/env" ]} "node1"
             ([handle_a], None) in
  let cfg := example_config [selection_a] ["Nodes"; "Pods"; "Services"]
               "/env" "node1:8080" {[ "a" := handle_a ]} in
  document w = inr doc ∧
  run_LoadConfig (example_builtin [selection_a]) example_version w =
    ((Some cfg, None), [CallReadInConfig; CallUnmarshal; CallLoadAllPlugins]) ∧
  ResultsDir cfg = "/env".
Proof.
  intros doc w cfg.
  assert (Hdoc : document w = inr doc) by reflexivity.
  assert (Hrun : run_LoadConfig (example_builtin [selection_a])
                   example_version w =
                 ((Some cfg, None),
                  [CallReadInConfig; CallUnmarshal; CallLoadAllPlugins]))
    by (vm_compute; reflexivity).
  split; [exact Hdoc|]. split; [exact Hrun|].
  exact (LoadConfig_resultsDirectory _ _ w _ cfg _ _ Hdoc Hrun).
Defined.

(** The spec's example: "a" and "b" are selected, only "a" is discovered. *)
Lemma loadAllPlugins_first_missing_witness :
  let w := example_world (inr ∅) ∅ "node1" ([handle_a], None) in
  let cfg := example_config [selection_a; selection_b] [] "./results" "" ∅ in
  discovered w cfg = ([handle_a], None) ∧
  Exists (fun sel => ¬ matched [handle_a] sel) (PluginSelections cfg) ∧
  (loadAllPlugins cfg w State_init).1.2 =
    Some "Configured plugin b does not exist".
Proof.
  intros w cfg.
  assert (Hd : discovered w cfg = ([handle_a], None)) by reflexivity.
  assert (Hex : Exists (fun sel => ¬ matched [handle_a] sel)
                  (PluginSelections cfg))
    by (apply (bool_decide_unpack _); vm_compute; exact I).
  split; [exact Hd|]. split; [exact Hex|].
  destruct (loadAllPlugins_first_missing w State_init cfg [handle_a] Hd Hex)
    as (pre & sel & post & Hsels & Hpre & Hsel & Herr & _).
  rewrite Herr.
  destruct pre as [|x [|y pre]]; cbn in Hsels.
  - injection Hsels as <- _. exfalso. apply Hsel.
    apply (bool_decide_unpack _). vm_compute. exact I.
  - injection Hsels as _ <- _. reflexivity.
  - injection Hsels as _ _ Hnil. by destruct pre.
Defined.

(** The spec's example: "a" is selected, "a" and "c" are discovered. *)
Lemma loadAllPlugins_registers_all_witness :
  let w := example_world (inr ∅) ∅ "node1" ([handle_a; handle_c], None) in
  let cfg := example_config [selection_a] [] "./results" "" ∅ in
  discovered w cfg = ([handle_a; handle_c], None) ∧
  Forall (matched [handle_a; handle_c]) (PluginSelections cfg) ∧
  ∃ cfg',
    (loadAllPlugins cfg w State_init).1 = (cfg', None) ∧
    ∀ p, p ∈ [handle_a; handle_c] →
      ∃ q, LoadedPlugins cfg' !! GetName p = Some q ∧
           q ∈ [handle_a; handle_c] ∧ GetName q = GetName p ∧
           (NoDup (GetName <$> [handle_a; handle_c]) → q = p).
Proof.
  intros w cfg.
  assert (Hd : discovered w cfg = ([handle_a; handle_c], None))
    by reflexivity.
  assert (Hall : Forall (matched [handle_a; handle_c]) (PluginSelections cfg))
    by (apply (bool_decide_unpack _); vm_compute; exact I).
  split; [exact Hd|]. split; [exact Hall|].
  exact (loadAllPlugins_registers_all w State_init cfg _ Hd Hall).
Defined.

(** "b" is selected and not discovered: nothing is registered. *)
Lemma loadAllPlugins_failure_registers_nothing_witness :
  let w := example_world (inr ∅) ∅ "node1" ([handle_a; handle_c], None) in
  let cfg := example_config [selection_a; selection_b] [] "./results" "" ∅ in
  discovered w cfg = ([handle_a; handle_c], None) ∧
  ¬ Forall (matched [handle_a; handle_c]) (PluginSelections cfg) ∧
  ∃ e, (loadAllPlugins cfg w State_init).1 = (cfg, Some e).
Proof.
  intros w cfg.
  assert (Hd : discovered w cfg = ([handle_a; handle_c], None))
    by reflexivity.
  assert (Hnot : ¬ Forall (matched [handle_a; handle_c])
                     (PluginSelections cfg))
    by (apply (bool_decide_unpack _); vm_compute; exact I).
  split; [exact Hd|]. split; [exact Hnot|].
  exact (proj1 (loadAllPlugins_failure_registers_nothing
                  (example_builtin []) example_version w)
           cfg State_init _ Hd Hnot).
Defined.

(** The same two plugins, discovered in the two orders. *)
Lemma loadAllPlugins_permutation_witness :
  let w := example_world (inr ∅) ∅ "node1" ([handle_a; handle_c], None) in
  let w' := example_world (inr ∅) ∅ "node1" ([handle_c; handle_a], None) in
  let cfg := example_config [selection_a] [] "./results" "" ∅ in
  discovered w cfg = ([handle_a; handle_c], None) ∧
  discovered w' cfg = ([handle_c; handle_a], None) ∧
  [handle_a; handle_c] ≡ₚ [handle_c; handle_a] ∧
  NoDup (GetName <$> [handle_a; handle_c]) ∧
  (loadAllPlugins cfg w State_init).1 = (loadAllPlugins cfg w' State_init).1.
Proof.
  intros w w' cfg.
  assert (Hd : discovered w cfg = ([handle_a; handle_c], None))
    by reflexivity.
  assert (Hd' : discovered w' cfg = ([handle_c; handle_a], None))
    by reflexivity.
  assert (Hp : [handle_a; handle_c] ≡ₚ [handle_c; handle_a])
    by apply perm_swap.
  assert (Hnd : NoDup (GetName <$> [handle_a; handle_c]))
    by (apply (bool_decide_unpack _); vm_compute; exact I).
  split; [exact Hd|]. split; [exact Hd'|]. split; [exact Hp|].
  split; [exact Hnd|].
  exact (proj2 (proj2 (loadAllPlugins_permutation w w' State_init cfg _ _
                         Hd Hd' Hp)) Hnd).
Defined.

(** The configuration file cannot be read. *)
Lemma LoadConfig_fails_fast_witness :
  let w := example_world (inl "Config File Not Found") ∅ "node1"
             ([handle_a], None) in
  document w = inl "Config File Not Found" ∧
  run_LoadConfig (example_builtin [selection_a]) example_version w =
    ((None, Some "Config File Not Found"), [CallReadInConfig]).
Proof.
  intros w.
  assert (Hdoc : document w = inl "Config File Not Found") by reflexivity.
  split; [exact Hdoc|].
  exact (proj1 (LoadConfig_fails_fast (example_builtin [selection_a])
                  example_version w) _ Hdoc).
Defined.

(** Without lines 85-87 the document's list would be laid over the default
    list; with them the resource list is the document's. *)
Example resources_exact_not_merged :
  let doc : Document := {[ "resources" := VArr [VStr "Secrets"] ]} in
  let w := example_world (inr doc) ∅ "node1" ([handle_a], None) in
  (∃ cfg, unmarshalled (example_builtin [selection_a]) example_version w doc
            = inr cfg ∧
          Resources cfg = ["Secrets"; "Pods"; "Services"]) ∧
  (Resources <$> (run_LoadConfig (example_builtin [selection_a])
                    example_version w).1.1) = Some ["Secrets"].
Proof.
  split; [eexists; split; vm_compute; reflexivity|vm_compute; reflexivity].
Qed.

(** The spec's example: the error names "b". *)
Example missing_plugin_b :
  let w := example_world (inr ∅) ∅ "node1" ([handle_a], None) in
  let cfg := example_config [selection_a; selection_b] [] "./results" "" ∅ in
  (loadAllPlugins cfg w State_init).1 =
    (cfg, Some "Configured plugin b does not exist").
Proof. vm_compute. reflexivity. Qed.

(** Outside the discovery contract, when a name is discovered twice, the
    handle kept under that name is the last one of the list. *)
Example shared_name_keeps_last :
  let first := {| handleName := "a"; handleDriver := 1 |} in
  let last := {| handleName := "a"; handleDriver := 2 |} in
  let cfg := example_config [selection_a] [] "./results" "" ∅ in
  LoadedPlugins (addPlugins cfg [first; last]) !! "a" = Some last ∧
  LoadedPlugins (addPlugins cfg [last; first]) !! "a" = Some first.
Proof. split; vm_compute; reflexivity. Qed.

(** ** More theorems at concrete inputs *)

(** "a" and "c" are discovered: the set holds the handle of "c". *)
Lemma loadAllPlugins_lookup_witness :
  let w := example_world (inr ∅) ∅ "node1" ([handle_a; handle_c], None) in
  let cfg := example_config [selection_a] [] "./results" "" ∅ in
  let cfg' := example_config [selection_a] [] "./results" ""
                {[ "a" := handle_a; "c" := handle_c ]} in
  discovered w cfg = ([handle_a; handle_c], None) ∧
  (loadAllPlugins cfg w State_init).1 = (cfg', None) ∧
  LoadedPlugins cfg' !! "c" = Some handle_c.
Proof.
  intros w cfg cfg'.
  assert (Hd : discovered w cfg = ([handle_a; handle_c], None))
    by reflexivity.
  assert (Hrun : (loadAllPlugins cfg w State_init).1 = (cfg', None))
    by (vm_compute; reflexivity).
  split; [exact Hd|]. split; [exact Hrun|].
  exact (loadAllPlugins_lookup cfg cfg' w State_init _ "c" Hd Hrun).
Defined.

(** "a" is selected, "a" and "c" are discovered. *)
Lemma LoadConfig_discovery_inputs_witness :
  let w := example_world (inr ∅) ∅ "node1" ([handle_a; handle_c], None) in
  let cfg := example_config [selection_a] ["Nodes"; "Pods"; "Services"]
               "./results" "node1:8080"
               {[ "a" := handle_a; "c" := handle_c ]} in
  run_LoadConfig (example_builtin [selection_a]) example_version w =
    ((Some cfg, None), [CallReadInConfig; CallUnmarshal; CallLoadAllPlugins]) ∧
  None = checkSelections (PluginSelections cfg) [handle_a; handle_c].
Proof.
  intros w cfg.
  assert (Hrun : run_LoadConfig (example_builtin [selection_a])
                   example_version w =
                 ((Some cfg, None),
                  [CallReadInConfig; CallUnmarshal; CallLoadAllPlugins]))
    by (vm_compute; reflexivity).
  split; [exact Hrun|].
  exact (LoadConfig_discovery_inputs _ _ w cfg _ _ Hrun).
Defined.

Lemma LoadConfig_loaded_plugins_witness :
  let w := example_world (inr ∅) ∅ "node1" ([handle_a; handle_c], None) in
  let cfg := example_config [selection_a] ["Nodes"; "Pods"; "Services"]
               "./results" "node1:8080"
               {[ "a" := handle_a; "c" := handle_c ]} in
  run_LoadConfig (example_builtin [selection_a]) example_version w =
    ((Some cfg, None), [CallReadInConfig; CallUnmarshal; CallLoadAllPlugins]) ∧
  ∃ plugins,
    discovered w cfg = (plugins, None) ∧
    ∀ name,
      LoadedPlugins cfg !! name =
      last (filter (fun p => GetName p = name) plugins).
Proof.
  intros w cfg.
  assert (Hrun : run_LoadConfig (example_builtin [selection_a])
                   example_version w =
                 ((Some cfg, None),
                  [CallReadInConfig; CallUnmarshal; CallLoadAllPlugins]))
    by (vm_compute; reflexivity).
  split; [exact Hrun|].
  exact (LoadConfig_loaded_plugins _ _ w cfg _ Hrun).
Defined.

(** An empty SONOBUOY_CONFIG, a variable the loader does not look up and a
    failing hostname lookup that still gives a name change nothing. *)
Lemma LoadConfig_sameInputs_witness :
  let w : World :=
    {| environ := {[ "SONOBUOY_CONFIG" := ""; "HOME" := "/root" ]};
       os_Hostname := ("node1", Some "lookup failed");
       readConfigFile := fun _ _ _ _ => inr ∅;
       pluginloader_LoadAllPlugins := fun _ _ _ _ => ([handle_a], None) |} in
  let w' := example_world (inr ∅) ∅ "node1" ([handle_a], None) in
  sameInputs w w' ∧
  run_LoadConfig (example_builtin [selection_a]) example_version w =
  run_LoadConfig (example_builtin [selection_a]) example_version w'.
Proof.
  intros w w'.
  assert (Hs : sameInputs w w') by (repeat split; reflexivity).
  split; [exact Hs|].
  exact (LoadConfig_sameInputs _ _ w w' Hs).
Defined.

(** KUBECONFIG and the document both give a kubeconfig path. *)
Lemma LoadConfig_kubeconfig_witness :
  let doc : Document := {[ "kubeconfig" := VStr "/doc/kubeconfig" ]} in
  let w := example_world (inr doc) {[ "KUBECONFIG" := "/env/kubeconfig" ]}
             "node1" ([handle_a], None) in
  let cfg := set_Kubeconfig "/env/kubeconfig"
               (example_config [selection_a] ["Nodes"; "Pods"; "Services"]
                  "./results" "node1:8080" {[ "a" := handle_a ]}) in
  document w = inr doc ∧
  run_LoadConfig (example_builtin [selection_a]) example_version w =
    ((Some cfg, None), [CallReadInConfig; CallUnmarshal; CallLoadAllPlugins]) ∧
  Kubeconfig cfg = "/env/kubeconfig".
Proof.
  intros doc w cfg.
  assert (Hdoc : document w = inr doc) by reflexivity.
  assert (Hrun : run_LoadConfig (example_builtin [selection_a])
                   example_version w =
                 ((Some cfg, None),
                  [CallReadInConfig; CallUnmarshal; CallLoadAllPlugins]))
    by (vm_compute; reflexivity).
  split; [exact Hdoc|]. split; [exact Hrun|].
  exact (proj1 (LoadConfig_kubeconfig _ _ w _ cfg _ _ Hdoc Hrun)
           "/env/kubeconfig" eq_refl ltac:(discriminate)).
Defined.

(** KUBECONFIG names the one file the example libraries can read. *)
Lemma LoadClient_kubeconfig_path_witness :
  let doc : Document := {[ "kubeconfig" := VStr "/doc/kubeconfig" ]} in
  let w := example_world (inr doc) {[ "KUBECONFIG" := "/etc/kube/config" ]}
             "node1" ([handle_a], None) in
  let cfg := example_config [selection_a] [] "./results" "" ∅ in
  viper (loadedState w doc []) = loaderViper (forcedConfigFile w) doc ∧
  "/etc/kube/config" ≠ "" ∧
  environ w !! "KUBECONFIG" = Some "/etc/kube/config" ∧
  (LoadClient example_kube cfg w (loadedState w doc [])).1 =
    (set_Kubeconfig "/etc/kube/config" cfg,
     (Some "client for config /etc/kube/config", None),
     [CallBuildConfigFromFlags "" "/etc/kube/config"; CallNewForConfig]).
Proof.
  intros doc w cfg.
  assert (Hv : viper (loadedState w doc [])
               = loaderViper (forcedConfigFile w) doc) by reflexivity.
  assert (Hne : "/etc/kube/config" ≠ "") by discriminate.
  assert (Henv : environ w !! "KUBECONFIG" = Some "/etc/kube/config")
    by reflexivity.
  split; [exact Hv|]. split; [exact Hne|]. split; [exact Henv|].
  exact (LoadClient_kubeconfig_path example_kube cfg w _ doc _ Hv Hne
           (or_introl Henv)).
Defined.

(** No KUBECONFIG, no kubeconfig path in the document, and no in-cluster
    credentials. *)
Lemma LoadClient_in_cluster_witness :
  let w := example_world (inr ∅) ∅ "node1" ([handle_a], None) in
  let cfg := example_config [selection_a] [] "./results" "" ∅ in
  viper (loadedState w ∅ []) = loaderViper (forcedConfigFile w) ∅ ∧
  (environ w !! "KUBECONFIG" = None ∨ environ w !! "KUBECONFIG" = Some "") ∧
  (docLookup (∅ : Document) "kubeconfig" = None ∨
   docLookup (∅ : Document) "kubeconfig" = Some (VStr "")) ∧
  (LoadClient example_kube cfg w (loadedState w ∅ [])).1 =
    (cfg, (None, Some "unable to load in-cluster configuration"),
     [CallInClusterConfig]).
Proof.
  intros w cfg.
  assert (Hv : viper (loadedState w ∅ [])
               = loaderViper (forcedConfigFile w) ∅) by reflexivity.
  assert (Henv : environ w !! "KUBECONFIG" = None ∨
                 environ w !! "KUBECONFIG" = Some "") by (left; reflexivity).
  assert (Hdoc : docLookup (∅ : Document) "kubeconfig" = None ∨
                 docLookup (∅ : Document) "kubeconfig" = Some (VStr ""))
    by (left; reflexivity).
  split; [exact Hv|]. split; [exact Henv|]. split; [exact Hdoc|].
  exact (LoadClient_in_cluster example_kube cfg w _ ∅ Hv Henv Hdoc).
Defined.

(** [LoadConfig] and then [LoadClient], with KUBECONFIG set. *)
Lemma LoadConfig_then_LoadClient_witness :
  let w := example_world (inr ∅) {[ "KUBECONFIG" := "/etc/kube/config" ]}
             "node1" ([handle_a], None) in
  let cfg := set_Kubeconfig "/etc/kube/config"
               (example_config [selection_a] ["Nodes"; "Pods"; "Services"]
                  "./results" "node1:8080" {[ "a" := handle_a ]}) in
  document w = inr ∅ ∧
  run_LoadConfig (example_builtin [selection_a]) example_version w =
    ((Some cfg, None), [CallReadInConfig; CallUnmarshal; CallLoadAllPlugins]) ∧
  (∃ p, environ w !! "KUBECONFIG" = Some p ∧ p ≠ "") ∧
  (LoadClient example_kube cfg w
     (LoadConfig (example_builtin [selection_a]) example_version w
        State_init).2).1.1.1 = cfg.
Proof.
  intros w cfg.
  assert (Hdoc : document w = inr ∅) by reflexivity.
  assert (Hrun : run_LoadConfig (example_builtin [selection_a])
                   example_version w =
                 ((Some cfg, None),
                  [CallReadInConfig; CallUnmarshal; CallLoadAllPlugins]))
    by (vm_compute; reflexivity).
  assert (Henv : ∃ p, environ w !! "KUBECONFIG" = Some p ∧ p ≠ "")
    by (exists "/etc/kube/config"; split; [reflexivity|discriminate]).
  split; [exact Hdoc|]. split; [exact Hrun|]. split; [exact Henv|].
  exact (LoadConfig_then_LoadClient _ _ example_kube w _ cfg _ _ Hdoc Hrun
           (or_introl Henv)).
Defined.

(** "a" is discovered, then "a" and "c". *)
Lemma loadAllPlugins_more_plugins_witness :
  let w := example_world (inr ∅) ∅ "node1" ([handle_a], None) in
  let w' := example_world (inr ∅) ∅ "node1" ([handle_a; handle_c], None) in
  let cfg := example_config [selection_a] [] "./results" "" ∅ in
  discovered w cfg = ([handle_a], None) ∧
  discovered w' cfg = ([handle_a; handle_c], None) ∧
  [handle_a] ⊆ [handle_a; handle_c] ∧
  (loadAllPlugins cfg w State_init).1.2 = None ∧
  (loadAllPlugins cfg w' State_init).1.2 = None.
Proof.
  intros w w' cfg.
  assert (Hd : discovered w cfg = ([handle_a], None)) by reflexivity.
  assert (Hd' : discovered w' cfg = ([handle_a; handle_c], None))
    by reflexivity.
  assert (Hsub : [handle_a] ⊆ [handle_a; handle_c]).
  { intros x Hx. apply list_elem_of_singleton in Hx as ->. left. }
  assert (Hok : (loadAllPlugins cfg w State_init).1.2 = None)
    by (vm_compute; reflexivity).
  split; [exact Hd|]. split; [exact Hd'|]. split; [exact Hsub|].
  split; [exact Hok|].
  exact (loadAllPlugins_more_plugins w w' State_init cfg _ _ Hd Hd' Hsub Hok).
Defined.

Lemma Errorf_plugin_does_not_exist_inj_witness :
  Errorf_plugin_does_not_exist "b" = Errorf_plugin_does_not_exist "b" ∧
  "b" = "b".
Proof.
  assert (Heq : Errorf_plugin_does_not_exist "b"
                = Errorf_plugin_does_not_exist "b") by reflexivity.
  split; [exact Heq|].
  exact (Errorf_plugin_does_not_exist_inj "b" "b" Heq).
Defined.
